(** * Memory usage monitor (modules/memmon.py)

    A shallow embedding of [MemUsageMonitor]: the object's fields, the
    construction-time probe, the caller's methods ([monitor], [stop],
    [read], [dump_debug]) and the body of the background thread ([run]),
    followed by the properties of the monitor that are proved about them.

    Modelling choices.
    - [self.data] is a [defaultdict(int)]: a finite map from metric names
      to Python integers.  Reading a missing key yields [0] and inserts
      the key (module [DefaultDict]).
    - [self.run_flag] is a [threading.Event]: a boolean gate.
      [set()] sets the flag and notifies a thread waiting in [wait()];
      a notified [wait()] returns even when the flag has been cleared
      again in between, as [threading.Event] does ([notified]).
    - The background thread is a program counter over the lines of [run]
      where another thread can observe it; every move of the thread is a
      [BgEvent].  The caller's method calls run to completion between two
      moves of the thread.
    - The device is outside the program.  Every query of the device made
      by a call or by the thread is answered by a [Snapshot], carried by
      the event that makes the query.  In the thread nothing is caught:
      a call that raises there ([Raise]) ends the thread.  In the
      caller's methods a query that raises aborts the call; only the
      queries of [__init__], whose exceptions are caught, are modelled
      as possibly raising. *)

From stdpp Require Import gmap strings list fin_maps.
From Stdlib Require Import ZArith Lia.

Open Scope Z_scope.

(** ** Exceptions and results *)

Inductive exn : Type :=
| Exception (msg : string)
| UnboundLocalError (var : string).

Inductive result (A : Type) : Type :=
| Ok (a : A)
| Err (e : exn).

Arguments Ok {A} a.
Arguments Err {A} e.

(** Sequencing: an exception raised by the first statement skips the
    rest of the block. *)
#[export] Instance result_bind : MBind result :=
  fun A B (k : A -> result B) (r : result A) =>
    match r with
    | Ok a => k a
    | Err e => Err e
    end.

(** ** [defaultdict(int)] *)

Module DefaultDict.

(** [d[k]] on the right of an assignment: the value, and the dictionary
    afterwards (a missing key is inserted with [int() = 0]). *)
Definition getitem (d : gmap string Z) (k : string) : Z * gmap string Z :=
  match d !! k with
  | Some v => (v, d)
  | None => (0, <[k := 0]> d)
  end.

(** [d[k] = v] *)
Definition setitem (k : string) (v : Z) (d : gmap string Z) : gmap string Z :=
  <[k := v]> d.

(** [d.clear()] *)
Definition clear (d : gmap string Z) : gmap string Z := ∅.

(** The value an observer gets for [d[k]]. *)
Definition value (d : gmap string Z) (k : string) : Z :=
  fst (getitem d k).

End DefaultDict.

Import DefaultDict.

(** ** The device, the options and the host *)

Record Device : Type := {
  type : string;
  index : option Z
}.

Record Opts : Type := {
  memmon_poll_rate : Z
}.

(** What the host answers to the calls made by [__init__].  [hthpu] is
    the module-level name bound at import ([false] for [None]); the other
    fields are the outcomes of the probing calls. *)
Record Host : Type := {
  hthpu : bool;
  cuda_mem_get_info_probe : result unit;
  cuda_memory_stats_probe : result unit;
  hpu_is_available_probe : result bool;
  hpu_mem_get_info_probe : result unit
}.

(** The figures the device reports at one query: [mem_get_info] /
    [memory_info()] ([free], [total], [used]), the four entries of
    [torch.cuda.memory_stats] that [read] uses, and the HPU allocator
    figures. *)
Record Snapshot : Type := {
  free : Z;
  total : Z;
  used : Z;
  active_all_current : Z;
  active_bytes_all_peak : Z;
  reserved_bytes_all_current : Z;
  reserved_bytes_all_peak : Z;
  memory_allocated : Z;
  max_memory_allocated : Z;
  Limit : Z;
  NumAllocs : Z;
  NumFrees : Z
}.

(** ** The monitor object *)

(** Where the background thread stands in [run]. *)
Inductive Pc : Type :=
| NotStarted     (* thread object created, [start()] not yet called *)
| AtWait         (* line 53: [self.run_flag.wait()] *)
| AtBaseline     (* line 63: about to take the baseline *)
| AtLoopTest     (* line 68: [while self.run_flag.is_set()] *)
| AtSample       (* line 69: inside the loop, before the query *)
| AtSleep        (* line 77: [time.sleep(1 / rate)] *)
| Exited.        (* [run] has returned or died *)

(** [run_flag] is the flag of the event; [notified] tells whether the
    [wait()] the thread is in (line 53) has been released: by a flag
    found set when [wait()] was called, or by a [set()] made since. *)
Record MemUsageMonitor : Type := {
  name : string;
  device : Device;
  opts : Opts;
  disabled : bool;
  run_flag : bool;
  data : gmap string Z;
  pc : Pc;
  notified : bool
}.

Definition set_run_flag (b : bool) (self : MemUsageMonitor) : MemUsageMonitor :=
  {| name := name self; device := device self; opts := opts self;
     disabled := disabled self; run_flag := b; data := data self;
     pc := pc self; notified := notified self |}.

Definition set_data (d : gmap string Z) (self : MemUsageMonitor) : MemUsageMonitor :=
  {| name := name self; device := device self; opts := opts self;
     disabled := disabled self; run_flag := run_flag self; data := d;
     pc := pc self; notified := notified self |}.

Definition set_pc (p : Pc) (self : MemUsageMonitor) : MemUsageMonitor :=
  {| name := name self; device := device self; opts := opts self;
     disabled := disabled self; run_flag := run_flag self; data := data self;
     pc := p; notified := notified self |}.

Definition set_notified (b : bool) (self : MemUsageMonitor) : MemUsageMonitor :=
  {| name := name self; device := device self; opts := opts self;
     disabled := disabled self; run_flag := run_flag self; data := data self;
     pc := pc self; notified := b |}.

Definition is_cuda (d : Device) : bool := String.eqb (type d) "cuda".
Definition is_hpu (d : Device) : bool := String.eqb (type d) "hpu".

(** ** [__init__] *)

(** The body of the [try] block (lines 30-36). *)
Definition init_probe (h : Host) (d : Device) : result unit :=
  if is_cuda d then
    _ ← cuda_mem_get_info_probe h;
    cuda_memory_stats_probe h
  else if is_hpu d && hthpu h then
    avail ← hpu_is_available_probe h;
    if (avail : bool) then hpu_mem_get_info_probe h
    else Err (Exception "Unsupported device type")
  else Err (Exception "Unsupported device type").

(** The constructor.  The [except Exception] clause turns every failure
    of the probe into [disabled = True]; nothing is re-raised, so the
    constructor is a total function. *)
Definition init (h : Host) (nm : string) (d : Device) (o : Opts) : MemUsageMonitor :=
  {| name := nm; device := d; opts := o;
     disabled := match init_probe h d with Ok _ => false | Err _ => true end;
     run_flag := false;
     data := ∅;
     pc := NotStarted;
     notified := false |}.

(** ** [read], [stop], [monitor], [dump_debug] *)

(** Lines 99-117: the device-family branch of [read].  It binds [free]
    and [total] and writes the allocator figures; with another device
    type nothing is bound and line 119 raises. *)
Definition read_stats (d : Device) (q : Snapshot) (m : gmap string Z)
  : result (Z * Z * gmap string Z) :=
  if is_cuda d then
    let m := setitem "active" (active_all_current q) m in
    let m := setitem "active_peak" (active_bytes_all_peak q) m in
    let m := setitem "reserved" (reserved_bytes_all_current q) m in
    let m := setitem "reserved_peak" (reserved_bytes_all_peak q) m in
    Ok (free q, total q, m)
  else if is_hpu d then
    let m := setitem "active" (memory_allocated q) m in
    let m := setitem "active_peak" (max_memory_allocated q) m in
    let m := setitem "reserved" (used q) m in
    let m := setitem "reserved_peak" (used q) m in
    let m := setitem "total_memory" (Limit q) m in
    let m := setitem "num_allocs" (NumAllocs q) m in
    let m := setitem "num_frees" (NumFrees q) m in
    Ok (free q, total q, m)
  else Err (UnboundLocalError "free").

(** [read] returns [self.data] itself: the map of the monitor returned
    here is the returned value. *)
Definition read (self : MemUsageMonitor) (q : Snapshot) : result MemUsageMonitor :=
  if disabled self then Ok self
  else
    '(fr, tot, m) ← read_stats (device self) q (data self);
    let m := setitem "free" fr m in
    let m := setitem "total" tot m in
    let '(min_free, m) := getitem m "min_free" in
    let m := setitem "system_peak" (tot - min_free) m in
    Ok (set_data m self).

(** [run_flag.set()]: the flag is set and a thread waiting in [wait()]
    is notified. *)
Definition monitor (self : MemUsageMonitor) : MemUsageMonitor :=
  let self := set_run_flag true self in
  match pc self with
  | AtWait => set_notified true self
  | _ => self
  end.

(** [run_flag.clear()] only clears the flag; then [read()]. *)
Definition stop (self : MemUsageMonitor) (q : Snapshot) : result MemUsageMonitor :=
  read (set_run_flag false self) q.

(** [-(v // -(1024 ** 2))] *)
Definition mib (v : Z) : Z := - (v / - (1024 ^ 2)).

(** [dump_debug] prints one line per entry of [self.read()] (the lines
    are returned here; the order in which the dictionary yields them is
    not modelled) and, on cuda, figures taken from torch that are not
    part of the monitor. *)
Definition dump_debug (self : MemUsageMonitor) (q : Snapshot)
  : result (MemUsageMonitor * list (string * Z)) :=
  self' ← read self q;
  Ok (self', prod_map id mib <$> map_to_list (data self')).

(** ** [run]: the background thread *)

Inductive BgEvent : Type :=
| Wake                     (* lines 53-61: the wait returns, the map is cleared *)
| Baseline (q : Snapshot)  (* lines 63-66 *)
| LoopTest                 (* line 68 *)
| Sample (q : Snapshot)    (* lines 69-75 *)
| Sleep                    (* line 77 *)
| Raise.                   (* the call the thread is about to make raises *)

(** Line 53 is reached and [wait()] is called: it returns at once when
    the flag is set, and otherwise the thread waits for a [set()]. *)
Definition enter_wait (self : MemUsageMonitor) : MemUsageMonitor :=
  set_pc AtWait (set_notified (run_flag self) self).

(** One move of the thread; [None] when the thread is not at the line
    the event belongs to (or is blocked in [wait]).  On cuda, [Wake] also
    resets the peak counters kept by torch, which are not part of the
    monitor.  The polling rate is a number; only its sign matters to the
    control flow, and it is taken as an integer.

    [Raise] is the failure of the call made at the current line: the
    peak reset of line 56 (cuda only, before the map is cleared), the
    query of lines 64-66 or 70-73 (before the map is touched), the
    division or the sleep of line 77.  [run] catches nothing, so the
    thread ends there.  [1 / rate] and [time.sleep] cannot succeed with a
    rate [<= 0]. *)
Definition run_step (self : MemUsageMonitor) (e : BgEvent) : option MemUsageMonitor :=
  match pc self, e with
  | AtWait, Wake =>
      if notified self then
        let self := set_notified false self in
        let self := set_data (clear (data self)) self in
        if memmon_poll_rate (opts self) <=? 0
        then Some (enter_wait (set_run_flag false self))
        else Some (set_pc AtBaseline self)
      else None
  | AtWait, Raise =>
      if notified self && is_cuda (device self)
      then Some (set_pc Exited self)
      else None
  | AtBaseline, Raise =>
      if is_cuda (device self) || is_hpu (device self)
      then Some (set_pc Exited self)
      else None
  | AtSample, Raise =>
      if is_cuda (device self) || is_hpu (device self)
      then Some (set_pc Exited self)
      else None
  | AtSleep, Raise => Some (set_pc Exited self)
  | AtBaseline, Baseline q =>
      let m :=
        if is_cuda (device self) then setitem "min_free" (free q) (data self)
        else if is_hpu (device self) then setitem "min_free" (free q) (data self)
        else data self in
      Some (set_pc AtLoopTest (set_data m self))
  | AtLoopTest, LoopTest =>
      if run_flag self then Some (set_pc AtSample self)
      else Some (enter_wait self)
  | AtSample, Sample q =>
      let '(min_free, m) := getitem (data self) "min_free" in
      if is_cuda (device self) || is_hpu (device self) then
        let m := setitem "min_free" (Z.min min_free (free q)) m in
        Some (set_pc AtSleep (set_data m self))
      else
        (* [free] is unbound: line 75 raises after [data["min_free"]]
           was evaluated, and the thread dies *)
        Some (set_pc Exited (set_data m self))
  | AtSleep, Sleep =>
      if memmon_poll_rate (opts self) <=? 0 then None
      else Some (set_pc AtLoopTest self)
  | _, _ => None
  end.

(** [start()]: [run] begins, and returns at once on a disabled monitor. *)
Definition start (self : MemUsageMonitor) : option MemUsageMonitor :=
  match pc self with
  | NotStarted =>
      if disabled self then Some (set_pc Exited self)
      else Some (enter_wait self)
  | _ => None
  end.

(** ** Interleavings of the caller and the thread *)

Inductive Event : Type :=
| Start
| CallMonitor
| CallStop (q : Snapshot)
| CallRead (q : Snapshot)
| CallDumpDebug (q : Snapshot)
| Bg (e : BgEvent).

Definition to_option {A : Type} (r : result A) : option A :=
  match r with
  | Ok a => Some a
  | Err _ => None
  end.

Definition step (self : MemUsageMonitor) (e : Event) : option MemUsageMonitor :=
  match e with
  | Start => start self
  | CallMonitor => Some (monitor self)
  | CallStop q => to_option (stop self q)
  | CallRead q => to_option (read self q)
  | CallDumpDebug q => fst <$> to_option (dump_debug self q)
  | Bg e => run_step self e
  end.

Fixpoint exec (self : MemUsageMonitor) (t : list Event) : option MemUsageMonitor :=
  match t with
  | [] => Some self
  | e :: t =>
      match step self e with
      | Some self' => exec self' t
      | None => None
      end
  end.

(** The free-memory figures delivered to the sampling thread, in order. *)
Definition sample_of (e : Event) : list Z :=
  match e with
  | Bg (Baseline q) => [free q]
  | Bg (Sample q) => [free q]
  | _ => []
  end.

Definition samples (t : list Event) : list Z := t ≫= sample_of.

Definition is_stop (e : Event) : bool :=
  match e with
  | CallStop _ => true
  | _ => false
  end.

(** No [stop()] in the trace: the trace stays within one episode. *)
Definition no_stop (t : list Event) : bool := forallb (fun e => negb (is_stop e)) t.

Definition is_raise (e : Event) : bool :=
  match e with
  | Bg Raise => true
  | _ => false
  end.

(** No call made by the thread raises along the trace. *)
Definition no_raise (t : list Event) : bool := forallb (fun e => negb (is_raise e)) t.

(** ** The states of the specification *)

Inductive MonitorState : Type := Disabled | Idle | Sampling.

Definition state_of (self : MemUsageMonitor) : MonitorState :=
  if disabled self then Disabled
  else if run_flag self then Sampling
  else Idle.

(** A device without the capability the monitor needs: an unrecognized
    type, or a recognized one whose probe in [__init__] fails. *)
Definition raises {A : Type} (r : result A) : Prop := ∃ e, r = Err e.

Definition lacks_capability (h : Host) (d : Device) : Prop :=
  (type d ≠ "cuda"%string ∧ type d ≠ "hpu"%string)
  ∨ (type d = "cuda"%string
     ∧ (raises (cuda_mem_get_info_probe h) ∨ raises (cuda_memory_stats_probe h)))
  ∨ (type d = "hpu"%string
     ∧ (hthpu h = false
        ∨ raises (hpu_is_available_probe h)
        ∨ hpu_is_available_probe h = Ok false
        ∨ raises (hpu_mem_get_info_probe h))).

(** A monitor built by [__init__] and driven by some interleaving. *)
Definition reachable (self : MemUsageMonitor) : Prop :=
  ∃ h nm d o t, exec (init h nm d o) t = Some self.

(** The keys [read] may write. *)
Definition read_keys : list string :=
  ["active"; "active_peak"; "reserved"; "reserved_peak"; "total_memory";
   "num_allocs"; "num_frees"; "free"; "total"; "min_free"; "system_peak"].

(** ** Invariants used in the proofs *)

(** Membership goals over explicit lists of keys. *)
Ltac split_keys H := repeat (apply not_elem_of_cons in H as [? H]).
Ltac not_in_keys :=
  repeat (apply not_elem_of_cons; split; [done |]); apply not_elem_of_nil.

(** Equalities between unions of singletons and sets of keys. *)
Ltac key_sets :=
  apply set_eq; intros ?;
  repeat (rewrite elem_of_union || rewrite elem_of_singleton
          || rewrite elem_of_empty);
  tauto.

(** The device types [read] and [run] have a branch for. *)
Definition supported (d : Device) : bool := is_cuda d || is_hpu d.

Definition wf (self : MemUsageMonitor) : Prop :=
  (disabled self = false → supported (device self) = true)
  ∧ (disabled self = true →
     data self = ∅ ∧ (pc self = NotStarted ∨ pc self = Exited)).

(** [min(f, *fs)] *)
Definition minimum (f : Z) (fs : list Z) : Z := fold_left Z.min fs f.

(** What holds from [monitor()] on, as long as no [stop()] is called, on
    an enabled monitor with a positive polling rate: [acc] lists the
    samples delivered so far.  A thread that has died keeps what it had
    written. *)
Definition episode_inv (acc : list Z) (self : MemUsageMonitor) : Prop :=
  disabled self = false
  ∧ supported (device self) = true
  ∧ 0 < memmon_poll_rate (opts self)
  ∧ run_flag self = true
  ∧ match pc self with
    | AtWait => acc = [] ∧ notified self = true
    | AtBaseline => acc = []
    | AtLoopTest | AtSample | AtSleep =>
        ∃ f fs, acc = f :: fs ∧ data self !! "min_free" = Some (minimum f fs)
    | Exited =>
        acc = []
        ∨ ∃ f fs, acc = f :: fs ∧ data self !! "min_free" = Some (minimum f fs)
    | NotStarted => False
    end.

(** The gate is open, and a thread at the wait has been released. *)
Definition gate_open (self : MemUsageMonitor) : Prop :=
  run_flag self = true ∧ (pc self = AtWait → notified self = true).

(** With a rate [<= 0] the thread never gets past the gate, and nothing
    writes [min_free]. *)
Definition parked_inv (self : MemUsageMonitor) : Prop :=
  (pc self = NotStarted ∨ pc self = AtWait ∨ pc self = Exited)
  ∧ value (data self) "min_free" = 0.

(** ** Concrete devices used in the examples *)

Definition hpu0 : Device := {| type := "hpu"; index := None |}.
Definition tpu0 : Device := {| type := "tpu"; index := None |}.

Definition gaudi_host : Host :=
  {| hthpu := true;
     cuda_mem_get_info_probe := Err (Exception "no CUDA runtime");
     cuda_memory_stats_probe := Err (Exception "no CUDA runtime");
     hpu_is_available_probe := Ok true;
     hpu_mem_get_info_probe := Ok () |}.

Definition snap (fr tot : Z) : Snapshot :=
  {| free := fr; total := tot; used := tot - fr;
     active_all_current := 3; active_bytes_all_peak := 70;
     reserved_bytes_all_current := 80; reserved_bytes_all_peak := 90;
     memory_allocated := 50; max_memory_allocated := 60;
     Limit := tot; NumAllocs := 7; NumFrees := 4 |}.

Definition fresh (rate : Z) : MemUsageMonitor :=
  init gaudi_host "MemMon" hpu0 {| memmon_poll_rate := rate |}.

Definition after (self : MemUsageMonitor) (t : list Event) : MemUsageMonitor :=
  default self (exec self t).

Definition scenario : list Event :=
  [Start; CallMonitor; Bg Wake; Bg (Baseline (snap 800 1000)); Bg LoopTest;
   Bg (Sample (snap 600 1000)); Bg Sleep; Bg LoopTest;
   Bg (Sample (snap 900 1000)); Bg Sleep].

(** A monitor on the example device, with its thread started. *)
Definition parked (rate : Z) : MemUsageMonitor := after (fresh rate) [Start].

(** ** Further notions used in the properties *)

(** What the probe of [__init__] needs in order to pass. *)
Definition has_capability (h : Host) (d : Device) : Prop :=
  (type d = "cuda"%string
   ∧ cuda_mem_get_info_probe h = Ok ()
   ∧ cuda_memory_stats_probe h = Ok ())
  ∨ (type d = "hpu"%string
     ∧ hthpu h = true
     ∧ hpu_is_available_probe h = Ok true
     ∧ hpu_mem_get_info_probe h = Ok ()).

(** The keys written by the device-family branch of [read]. *)
Definition stats_keys (d : Device) : list string :=
  if is_cuda d then
    ["active"; "active_peak"; "reserved"; "reserved_peak"]%string
  else if is_hpu d then
    ["active"; "active_peak"; "reserved"; "reserved_peak"; "total_memory";
     "num_allocs"; "num_frees"]%string
  else [].

(** The keys written by lines 119-121 (line 121 reads [min_free], which
    inserts it when it is missing). *)
Definition summary_keys : list string :=
  ["free"; "total"; "min_free"; "system_peak"]%string.

(** How many moves the thread can still make, and how many samples it
    can still take, once the gate is closed. *)
Definition moves_left (self : MemUsageMonitor) : nat :=
  match pc self with
  | AtSample => 3
  | AtSleep => 2
  | AtBaseline => 2
  | AtLoopTest => 1
  | AtWait => if notified self then 3 else 0
  | NotStarted | Exited => 0
  end.

Definition samples_left (self : MemUsageMonitor) : nat :=
  match pc self with
  | AtSample | AtBaseline => 1
  | AtWait => if notified self then 1 else 0
  | _ => 0
  end.

Definition cuda_host : Host :=
  {| hthpu := false;
     cuda_mem_get_info_probe := Ok ();
     cuda_memory_stats_probe := Ok ();
     hpu_is_available_probe := Err (Exception "no habana_frameworks");
     hpu_mem_get_info_probe := Err (Exception "no habana_frameworks") |}.

Definition cuda1 : Device := {| type := "cuda"; index := Some 1 |}.

(** * Properties *)

(** ** The dictionary *)

Lemma value_lookup (d : gmap string Z) (k : string) :
  value d k = default 0 (d !! k).
Proof. unfold value, getitem. destruct (d !! k); reflexivity. Qed.

Lemma getitem_lookup_same (d : gmap string Z) (k : string) :
  snd (getitem d k) !! k = Some (value d k).
Proof.
  unfold value, getitem. destruct (d !! k) eqn:E; simpl; [exact E |].
  apply lookup_insert_eq.
Qed.

Lemma getitem_lookup_other (d : gmap string Z) (k k' : string) :
  k ≠ k' → snd (getitem d k) !! k' = d !! k'.
Proof.
  intros Hne. unfold getitem. destruct (d !! k); simpl; [reflexivity |].
  by apply lookup_insert_ne.
Qed.

Lemma getitem_present (d : gmap string Z) (k : string) (v : Z) :
  d !! k = Some v → getitem d k = (v, d).
Proof. intros E. unfold getitem. by rewrite E. Qed.

(** ** Setters *)

Lemma set_run_flag_same (self : MemUsageMonitor) :
  set_run_flag (run_flag self) self = self.
Proof. by destruct self. Qed.

(** Setting a gate that is already set changes nothing. *)
Lemma monitor_gate_open (self : MemUsageMonitor) :
  run_flag self = true → (pc self = AtWait → notified self = true) →
  monitor self = self.
Proof.
  intros E Hn. unfold monitor. destruct self as [n d o di rf da p nt].
  simpl in *. subst rf. destruct p; try reflexivity.
  unfold set_notified, set_run_flag. simpl. by rewrite Hn.
Qed.

(** ** [read] *)

Lemma read_disabled (self : MemUsageMonitor) (q : Snapshot) :
  disabled self = true → read self q = Ok self.
Proof. intros E. unfold read. by rewrite E. Qed.

(** The shape of a successful [read] on an enabled monitor. *)
Lemma read_enabled (self self' : MemUsageMonitor) (q : Snapshot) :
  disabled self = false → read self q = Ok self' →
  ∃ m, read_stats (device self) q (data self) = Ok (free q, total q, m)
       ∧ self' = set_data
           (setitem "system_peak"
              (total q - value (setitem "total" (total q) (setitem "free" (free q) m)) "min_free")
              (snd (getitem (setitem "total" (total q) (setitem "free" (free q) m)) "min_free")))
           self.
Proof.
  intros Hd H. unfold read in H. rewrite Hd in H.
  destruct (read_stats (device self) q (data self)) as [[[fr tot] m]|e] eqn:E;
    simpl in H; [| discriminate].
  assert (fr = free q ∧ tot = total q) as [-> ->].
  { unfold read_stats in E.
    destruct (is_cuda _); [| destruct (is_hpu _)]; by inversion E. }
  exists m. split; [reflexivity |].
  unfold value.
  destruct (getitem _ "min_free") as [mf m2]. simpl in *. by inversion H.
Qed.

Lemma read_stats_lookup (d : Device) (q : Snapshot) (m m' : gmap string Z)
    (fr tot : Z) (k : string) :
  read_stats d q m = Ok (fr, tot, m') →
  k ∉ ["active"; "active_peak"; "reserved"; "reserved_peak"; "total_memory";
       "num_allocs"; "num_frees"] →
  m' !! k = m !! k.
Proof.
  intros H Hk. unfold read_stats, setitem in H. split_keys Hk.
  destruct (is_cuda d); [| destruct (is_hpu d)]; inversion H; subst;
    by rewrite !lookup_insert_ne.
Qed.

Lemma read_frame (self self' : MemUsageMonitor) (q : Snapshot) :
  read self q = Ok self' →
  name self' = name self ∧ device self' = device self ∧ opts self' = opts self
  ∧ disabled self' = disabled self ∧ run_flag self' = run_flag self
  ∧ pc self' = pc self.
Proof.
  intros H. destruct (disabled self) eqn:Hd.
  - rewrite read_disabled in H by done. inversion H; subst. by rewrite Hd.
  - destruct (read_enabled _ _ _ Hd H) as (m & _ & ->). simpl. by rewrite Hd.
Qed.

Lemma read_notified (self self' : MemUsageMonitor) (q : Snapshot) :
  read self q = Ok self' → notified self' = notified self.
Proof.
  intros H. destruct (disabled self) eqn:Hd.
  - rewrite read_disabled in H by done. by inversion H; subst.
  - by destruct (read_enabled _ _ _ Hd H) as (m & _ & ->).
Qed.

Lemma read_lookup_other (self self' : MemUsageMonitor) (q : Snapshot) (k : string) :
  read self q = Ok self' → k ∉ read_keys → data self' !! k = data self !! k.
Proof.
  intros H Hk. destruct (disabled self) eqn:Hd.
  - rewrite read_disabled in H by done. by inversion H.
  - destruct (read_enabled _ _ _ Hd H) as (m & Hs & ->). simpl.
    unfold read_keys in Hk. unfold setitem. split_keys Hk.
    rewrite lookup_insert_ne by done.
    rewrite getitem_lookup_other by done.
    rewrite !lookup_insert_ne by done.
    eapply read_stats_lookup; [exact Hs |]. not_in_keys.
Qed.

(** The entries written by the device-family branch reach the result. *)
Lemma read_stats_passed (self self' : MemUsageMonitor) (q : Snapshot)
    (m : gmap string Z) (k : string) :
  disabled self = false → read self q = Ok self' →
  read_stats (device self) q (data self) = Ok (free q, total q, m) →
  k ∉ ["free"; "total"; "min_free"; "system_peak"]%string →
  data self' !! k = m !! k.
Proof.
  intros Hd H Hs Hk. destruct (read_enabled _ _ _ Hd H) as (m' & Hs' & ->).
  rewrite Hs in Hs'. inversion Hs'; subst m'. simpl. unfold setitem.
  split_keys Hk.
  rewrite lookup_insert_ne by done. rewrite getitem_lookup_other by done.
  by rewrite !lookup_insert_ne by done.
Qed.

Lemma read_min_free_lookup (self self' : MemUsageMonitor) (q : Snapshot) :
  read self q = Ok self' → disabled self = false →
  data self' !! "min_free" = Some (value (data self) "min_free").
Proof.
  intros H Hd. destruct (read_enabled _ _ _ Hd H) as (m & Hs & ->). simpl.
  unfold setitem. rewrite lookup_insert_ne by done.
  rewrite getitem_lookup_same. f_equal.
  rewrite !value_lookup, !lookup_insert_ne by done.
  f_equal. eapply read_stats_lookup; [exact Hs |]. not_in_keys.
Qed.

Lemma read_min_free_value (self self' : MemUsageMonitor) (q : Snapshot) :
  read self q = Ok self' →
  value (data self') "min_free" = value (data self) "min_free".
Proof.
  intros H. destruct (disabled self) eqn:Hd.
  - rewrite read_disabled in H by done. by inversion H.
  - rewrite (value_lookup (data self')).
    by rewrite (read_min_free_lookup _ _ _ H Hd).
Qed.

Lemma read_figures (self self' : MemUsageMonitor) (q : Snapshot) :
  read self q = Ok self' → disabled self = false →
  data self' !! "free" = Some (free q)
  ∧ data self' !! "total" = Some (total q)
  ∧ data self' !! "system_peak" = Some (total q - value (data self) "min_free").
Proof.
  intros H Hd. pose proof (read_min_free_lookup _ _ _ H Hd) as Hmf.
  destruct (read_enabled _ _ _ Hd H) as (m & Hs & ->). simpl in *.
  unfold setitem in *. rewrite lookup_insert_ne in Hmf by done.
  rewrite getitem_lookup_same in Hmf. inversion Hmf as [Hv]. rewrite Hv.
  rewrite lookup_insert_eq.
  rewrite !lookup_insert_ne, !getitem_lookup_other by done.
  rewrite lookup_insert_ne, !lookup_insert_eq by done. done.
Qed.

(** On a supported device [read] returns. *)
Lemma read_supported (self : MemUsageMonitor) (q : Snapshot) :
  is_cuda (device self) || is_hpu (device self) = true →
  ∃ self', read self q = Ok self'.
Proof.
  intros Hs. unfold read. destruct (disabled self); [by eexists |].
  unfold read_stats.
  destruct (is_cuda (device self)); [| destruct (is_hpu (device self))];
    try discriminate; simpl;
    destruct (getitem _ "min_free"); by eexists.
Qed.

(** ** Traces *)

Lemma exec_app (self : MemUsageMonitor) (t1 t2 : list Event) :
  exec self (t1 ++ t2) = exec self t1 ≫= λ self', exec self' t2.
Proof.
  revert self. induction t1 as [| e t1 IH]; intros self; simpl; [reflexivity |].
  destruct (step self e); simpl; [apply IH | reflexivity].
Qed.

(** A property kept by every step holds along every trace. *)
Lemma exec_invariant (P : MemUsageMonitor → Prop) :
  (∀ self e self', P self → step self e = Some self' → P self') →
  ∀ t self self', P self → exec self t = Some self' → P self'.
Proof.
  intros Hstep. induction t as [| e t IH]; intros self self' HP H; simpl in H.
  - by inversion H; subst.
  - destruct (step self e) as [self1 |] eqn:E; [| discriminate].
    eapply IH; [| exact H]. eapply Hstep; eauto.
Qed.

(** Case analysis on a step: the calls through [read], and the moves of
    the thread. *)
Lemma dump_debug_read (self self' : MemUsageMonitor) (q : Snapshot)
    (out : list (string * Z)) :
  dump_debug self q = Ok (self', out) → read self q = Ok self'.
Proof.
  unfold dump_debug. destruct (read self q) as [s |]; simpl; [| discriminate].
  intros H. by inversion H.
Qed.

Lemma dump_debug_ok (self self' : MemUsageMonitor) (q : Snapshot) :
  read self q = Ok self' → ∃ out, dump_debug self q = Ok (self', out).
Proof. intros H. unfold dump_debug. rewrite H. simpl. by eexists. Qed.

Lemma step_dump_debug (self self' : MemUsageMonitor) (q : Snapshot) :
  step self (CallDumpDebug q) = Some self' → read self q = Ok self'.
Proof.
  simpl. destruct (dump_debug self q) as [[s out] |] eqn:E; simpl; [| discriminate].
  intros H. inversion H; subst. by eapply dump_debug_read.
Qed.

Lemma step_read (self self' : MemUsageMonitor) (q : Snapshot) :
  step self (CallRead q) = Some self' → read self q = Ok self'.
Proof. simpl. destruct (read self q); simpl; [| discriminate]. by intros [= ->]. Qed.

Lemma step_stop (self self' : MemUsageMonitor) (q : Snapshot) :
  step self (CallStop q) = Some self' → stop self q = Ok self'.
Proof. simpl. destruct (stop self q); simpl; [| discriminate]. by intros [= ->]. Qed.

(** ** What no step changes *)

Lemma run_step_frame (self self' : MemUsageMonitor) (e : BgEvent) :
  run_step self e = Some self' →
  name self' = name self ∧ device self' = device self ∧ opts self' = opts self
  ∧ disabled self' = disabled self.
Proof.
  unfold run_step. intros H.
  destruct (pc self), e; try discriminate;
    repeat match type of H with
      | context [if ?b then _ else _] => destruct b
      | context [getitem ?d ?k] => destruct (getitem d k)
      end; inversion H; subst; done.
Qed.

Lemma monitor_frame (self : MemUsageMonitor) :
  name (monitor self) = name self ∧ device (monitor self) = device self
  ∧ opts (monitor self) = opts self ∧ disabled (monitor self) = disabled self
  ∧ data (monitor self) = data self ∧ pc (monitor self) = pc self
  ∧ run_flag (monitor self) = true.
Proof. unfold monitor. simpl. destruct (pc self) eqn:E; simpl; by rewrite ?E. Qed.

Lemma monitor_notified (self : MemUsageMonitor) :
  pc self = AtWait → notified (monitor self) = true.
Proof. destruct self. simpl. by intros ->. Qed.

Lemma start_frame (self self' : MemUsageMonitor) :
  start self = Some self' →
  name self' = name self ∧ device self' = device self ∧ opts self' = opts self
  ∧ disabled self' = disabled self ∧ data self' = data self
  ∧ run_flag self' = run_flag self
  ∧ pc self = NotStarted
  ∧ pc self' = (if disabled self then Exited else AtWait)
  ∧ (disabled self = false → notified self' = run_flag self).
Proof.
  unfold start. destruct (pc self); try discriminate.
  destruct (disabled self) eqn:Hd; intros H; inversion H; subst; simpl;
    rewrite ?Hd; done.
Qed.

Lemma step_frame (self self' : MemUsageMonitor) (e : Event) :
  step self e = Some self' →
  name self' = name self ∧ device self' = device self ∧ opts self' = opts self
  ∧ disabled self' = disabled self.
Proof.
  destruct e as [| | q | q | q | b]; intros H.
  - apply start_frame in H. by destruct H as (? & ? & ? & ? & _).
  - inversion H; subst. pose proof (monitor_frame self) as (? & ? & ? & ? & _).
    done.
  - apply step_stop in H. apply read_frame in H. simpl in H.
    by destruct H as (? & ? & ? & ? & _).
  - apply step_read in H. apply read_frame in H.
    by destruct H as (? & ? & ? & ? & _).
  - apply step_dump_debug in H. apply read_frame in H.
    by destruct H as (? & ? & ? & ? & _).
  - by apply run_step_frame in H.
Qed.

Lemma exec_frame (t : list Event) (self self' : MemUsageMonitor) :
  exec self t = Some self' →
  name self' = name self ∧ device self' = device self ∧ opts self' = opts self
  ∧ disabled self' = disabled self.
Proof.
  intros H.
  apply (exec_invariant
           (λ s, name s = name self ∧ device s = device self
                 ∧ opts s = opts self ∧ disabled s = disabled self))
    with (t := t) (self := self); [| done | done].
  intros s e s' (? & ? & ? & ?) Hs.
  apply step_frame in Hs as (? & ? & ? & ?). repeat split; congruence.
Qed.

(** ** Well-formed monitors: what [__init__] establishes *)

Lemma init_probe_supported (h : Host) (d : Device) (u : unit) :
  init_probe h d = Ok u → supported d = true.
Proof.
  unfold init_probe, supported.
  destruct (is_cuda d); [done |]. destruct (is_hpu d); [done |]. done.
Qed.

Lemma init_wf (h : Host) (nm : string) (d : Device) (o : Opts) : wf (init h nm d o).
Proof.
  unfold wf, init. simpl. split.
  - destruct (init_probe h d) eqn:E; [| done]. intros _.
    by eapply init_probe_supported.
  - intros _. split; [done | by left].
Qed.

Lemma step_wf (self self' : MemUsageMonitor) (e : Event) :
  wf self → step self e = Some self' → wf self'.
Proof.
  intros [Hen Hdis] H. pose proof (step_frame _ _ _ H) as (_ & Hdev & _ & Hd).
  split; rewrite Hd, ?Hdev; [done |].
  intros Hd1. destruct (Hdis Hd1) as [Hdata Hpc].
  destruct e as [| | q | q | q | b].
  - apply start_frame in H as (_ & _ & _ & _ & -> & _ & _ & -> & _).
    rewrite Hd1. by split; [| right].
  - inversion H; subst.
    pose proof (monitor_frame self) as (_ & _ & _ & _ & -> & -> & _). done.
  - apply step_stop in H. unfold stop in H.
    rewrite read_disabled in H by done. inversion H; subst. done.
  - apply step_read in H. rewrite read_disabled in H by done.
    inversion H; subst. done.
  - apply step_dump_debug in H. rewrite read_disabled in H by done.
    inversion H; subst. done.
  - simpl in H. unfold run_step in H.
    destruct Hpc as [Hpc | Hpc]; rewrite Hpc in H; discriminate.
Qed.

Lemma reachable_wf (self : MemUsageMonitor) : reachable self → wf self.
Proof.
  intros (h & nm & d & o & t & H).
  eapply (exec_invariant wf); [| apply init_wf | exact H].
  intros s e s'. apply step_wf.
Qed.

Lemma reachable_exec (self self' : MemUsageMonitor) (t : list Event) :
  reachable self → exec self t = Some self' → reachable self'.
Proof.
  intros (h & nm & d & o & t0 & H0) H. exists h, nm, d, o, (t0 ++ t).
  rewrite exec_app, H0. exact H.
Qed.

Lemma reachable_read_returns (self : MemUsageMonitor) (q : Snapshot) :
  reachable self → ∃ self', read self q = Ok self'.
Proof.
  intros Hr. destruct (reachable_wf _ Hr) as [Hen _].
  destruct (disabled self) eqn:Hd.
  - exists self. by apply read_disabled.
  - apply read_supported. by apply Hen.
Qed.

(** ** One sampling episode *)

Lemma minimum_snoc (f x : Z) (fs : list Z) :
  minimum f (fs ++ [x]) = Z.min (minimum f fs) x.
Proof. unfold minimum. by rewrite fold_left_app. Qed.

Lemma fold_min_le (l : list Z) (a : Z) : fold_left Z.min l a ≤ a.
Proof.
  revert a. induction l as [| x l IH]; intros a; simpl; [lia |].
  specialize (IH (Z.min a x)). lia.
Qed.

Lemma minimum_app_le (f : Z) (fs l : list Z) :
  minimum f (fs ++ l) ≤ minimum f fs.
Proof. unfold minimum. rewrite fold_left_app. apply fold_min_le. Qed.

Lemma minimum_lower_bound (f : Z) (fs : list Z) (x : Z) :
  x ∈ f :: fs → minimum f fs ≤ x.
Proof.
  unfold minimum. revert f. induction fs as [| y fs IH]; intros f Hx; simpl.
  - apply list_elem_of_singleton in Hx. lia.
  - apply elem_of_cons in Hx as [-> | Hx].
    + pose proof (fold_min_le fs (Z.min f y)). lia.
    + apply elem_of_cons in Hx as [-> | Hx].
      * pose proof (fold_min_le fs (Z.min f y)). lia.
      * etrans; [apply (IH (Z.min f y)); by right |]. lia.
Qed.

Lemma minimum_attained (f : Z) (fs : list Z) : minimum f fs ∈ f :: fs.
Proof.
  unfold minimum. revert f. induction fs as [| y fs IH]; intros f; simpl.
  - by left.
  - specialize (IH (Z.min f y)). apply elem_of_cons in IH as [E | IH].
    + rewrite E. destruct (Z.min_spec f y) as [[_ ->] | [_ ->]];
        [by left | right; by left].
    + right. by right.
Qed.

Lemma episode_inv_read (acc : list Z) (self self' : MemUsageMonitor) (q : Snapshot) :
  episode_inv acc self → read self q = Ok self' → episode_inv acc self'.
Proof.
  intros (Hd & Hsup & Hrate & Hflag & Hpc) H.
  pose proof (read_frame _ _ _ H) as (_ & Hdev & Hopts & Hd' & Hfl' & Hpc').
  pose proof (read_notified _ _ _ H) as Hn.
  pose proof (read_min_free_lookup _ _ _ H Hd) as Hmf.
  assert (∀ v, data self !! "min_free" = Some v →
               data self' !! "min_free" = Some v) as Hkeep.
  { intros v Hv. by rewrite Hmf, value_lookup, Hv. }
  unfold episode_inv. rewrite Hdev, Hopts, Hd', Hfl', Hpc', Hn.
  repeat (split; [done |]).
  destruct (pc self); try done.
  - destruct Hpc as (f & fs & -> & Hl). exists f, fs. split; [done | auto].
  - destruct Hpc as (f & fs & -> & Hl). exists f, fs. split; [done | auto].
  - destruct Hpc as (f & fs & -> & Hl). exists f, fs. split; [done | auto].
  - destruct Hpc as [-> | (f & fs & -> & Hl)]; [by left |].
    right. exists f, fs. split; [done | auto].
Qed.

Lemma episode_inv_step (acc : list Z) (self self' : MemUsageMonitor) (e : Event) :
  episode_inv acc self → is_stop e = false → step self e = Some self' →
  episode_inv (acc ++ sample_of e) self'.
Proof.
  intros Hinv Hns H.
  destruct e as [| | q | q | q | b]; simpl sample_of; rewrite ?app_nil_r.
  - destruct Hinv as (_ & _ & _ & _ & Hpc).
    apply start_frame in H as (_ & _ & _ & _ & _ & _ & E & _).
    rewrite E in Hpc. done.
  - inversion H; subst. rewrite monitor_gate_open; [exact Hinv | |].
    + by destruct Hinv as (_ & _ & _ & ? & _).
    + intros E. destruct Hinv as (_ & _ & _ & _ & Hpc). rewrite E in Hpc.
      by destruct Hpc.
  - discriminate.
  - apply step_read in H. by eapply episode_inv_read.
  - apply step_dump_debug in H. by eapply episode_inv_read.
  - destruct Hinv as (Hd & Hsup & Hrate & Hflag & Hpc).
    assert ((memmon_poll_rate (opts self) <=? 0) = false) as Hleb
      by (apply Z.leb_gt; lia).
    simpl in H. unfold run_step in H. unfold episode_inv.
    unfold supported in Hsup.
    destruct (pc self) eqn:Epc, b; try discriminate.
    + (* Wake *)
      destruct Hpc as [-> Hn]. rewrite Hn in H. simpl in H.
      rewrite Hleb in H. inversion H; subst; simpl. done.
    + (* the peak reset raises *)
      destruct Hpc as [-> Hn].
      destruct (notified self && is_cuda (device self)); [| discriminate].
      inversion H; subst; simpl. repeat (split; [done |]). by left.
    + (* Baseline *)
      subst acc. inversion H; subst; simpl. repeat (split; [done |]).
      exists (free q), []. split; [done |].
      destruct (is_cuda (device self)); [apply lookup_insert_eq |].
      destruct (is_hpu (device self)); [apply lookup_insert_eq | done].
    + (* the baseline query raises *)
      subst acc. rewrite Hsup in H. inversion H; subst; simpl.
      repeat (split; [done |]). by left.
    + (* LoopTest *)
      rewrite Hflag in H. inversion H; subst; simpl. by rewrite ?app_nil_r.
    + (* Sample *)
      destruct Hpc as (f & fs & -> & Hl).
      rewrite Hsup in H. rewrite (getitem_present _ _ _ Hl) in H.
      inversion H; subst; simpl. repeat (split; [done |]).
      exists f, (fs ++ [free q]). split; [done |].
      rewrite minimum_snoc. apply lookup_insert_eq.
    + (* the query of the loop raises *)
      rewrite Hsup in H. inversion H; subst; simpl. rewrite app_nil_r.
      repeat (split; [done |]). by right.
    + (* Sleep *)
      rewrite Hleb in H. inversion H; subst; simpl. by rewrite ?app_nil_r.
    + (* the sleep raises *)
      inversion H; subst; simpl. rewrite app_nil_r.
      repeat (split; [done |]). by right.
Qed.

Lemma episode_inv_exec (t : list Event) :
  ∀ (acc : list Z) (self self' : MemUsageMonitor),
    episode_inv acc self → no_stop t = true → exec self t = Some self' →
    episode_inv (acc ++ samples t) self'.
Proof.
  induction t as [| e t IH]; intros acc self self' Hinv Hns H; simpl in H.
  - inversion H; subst. by rewrite app_nil_r.
  - destruct (step self e) as [self1 |] eqn:E; [| discriminate].
    simpl in Hns. apply andb_prop in Hns as [He Ht].
    apply negb_true_iff in He.
    change (samples (e :: t)) with (sample_of e ++ samples t).
    rewrite app_assoc. eapply IH; [| exact Ht | exact H].
    by eapply episode_inv_step.
Qed.

Lemma episode_inv_monitor (self : MemUsageMonitor) :
  reachable self → disabled self = false → pc self = AtWait →
  0 < memmon_poll_rate (opts self) →
  episode_inv [] (monitor self).
Proof.
  intros Hr Hd Hpc Hrate. destruct (reachable_wf _ Hr) as [Hen _].
  pose proof (monitor_frame self) as (_ & Hdev & Ho & Hd' & _ & Hpc' & Hfl).
  unfold episode_inv. rewrite Hdev, Ho, Hd', Hpc', Hfl, Hpc.
  split; [done |]. split; [by apply Hen |]. split; [done |]. split; [done |].
  split; [done |]. by apply monitor_notified.
Qed.

(** With samples delivered, [min_free] is their minimum. *)
Lemma episode_inv_min_free (f : Z) (fs : list Z) (self : MemUsageMonitor) :
  episode_inv (f :: fs) self → data self !! "min_free" = Some (minimum f fs).
Proof.
  intros (_ & _ & _ & _ & Hpc).
  destruct (pc self); try done.
  - by destruct Hpc.
  - destruct Hpc as (f' & fs' & E & Hl). by inversion E; subst.
  - destruct Hpc as (f' & fs' & E & Hl). by inversion E; subst.
  - destruct Hpc as (f' & fs' & E & Hl). by inversion E; subst.
  - destruct Hpc as [E | (f' & fs' & E & Hl)]; [done |]. by inversion E; subst.
Qed.

(** ** A non-positive polling rate *)

Lemma parked_inv_read (self self' : MemUsageMonitor) (q : Snapshot) :
  parked_inv self → read self q = Ok self' → parked_inv self'.
Proof.
  intros [Hpc Hv] H. pose proof (read_frame _ _ _ H) as (_ & _ & _ & _ & _ & Hpc').
  split; [by rewrite Hpc' |]. by rewrite (read_min_free_value _ _ _ H).
Qed.

(** A move of the thread that delivers no sample leaves the map as it
    is or clears it. *)
Lemma run_step_quiet (self self' : MemUsageMonitor) (e : BgEvent) :
  sample_of (Bg e) = [] → run_step self e = Some self' →
  data self' = data self ∨ data self' = ∅.
Proof.
  intros He H. unfold run_step in H.
  destruct (pc self), e; try discriminate;
    repeat match type of H with
      | context [if ?b then _ else _] => destruct b
      end; inversion H; subst; simpl; auto.
Qed.

Lemma parked_inv_step (self self' : MemUsageMonitor) (e : Event) :
  memmon_poll_rate (opts self) ≤ 0 → parked_inv self →
  step self e = Some self' → parked_inv self' ∧ sample_of e = [].
Proof.
  intros Hrate Hinv H. destruct e as [| | q | q | q | b]; simpl sample_of.
  - split; [| done]. destruct Hinv as [Hpc Hv].
    apply start_frame in H as (_ & _ & _ & _ & Hdata & _ & _ & Hpc' & _).
    split; [| by rewrite Hdata]. rewrite Hpc'. destruct (disabled self); auto.
  - inversion H; subst. split; [| done]. destruct Hinv as [Hpc Hv].
    pose proof (monitor_frame self) as (_ & _ & _ & _ & Hdata & Hpc' & _).
    split; [by rewrite Hpc' | by rewrite Hdata].
  - apply step_stop in H. split; [| done].
    eapply parked_inv_read; [| exact H]. done.
  - apply step_read in H. split; [| done]. by eapply parked_inv_read.
  - apply step_dump_debug in H. split; [| done]. by eapply parked_inv_read.
  - destruct Hinv as [Hpc Hv]. simpl in H. unfold run_step in H.
    assert ((memmon_poll_rate (opts self) <=? 0) = true) as Hleb
      by (apply Z.leb_le; lia).
    destruct Hpc as [Hpc | [Hpc | Hpc]]; rewrite Hpc in H; try discriminate.
    destruct b; try discriminate.
    + destruct (notified self); [| discriminate]. simpl in H.
      rewrite Hleb in H. inversion H; subst. split; [| done].
      split; simpl; auto.
    + destruct (notified self && is_cuda (device self)); [| discriminate].
      inversion H; subst. split; [| done]. split; simpl; auto.
Qed.

Lemma parked_inv_exec (t : list Event) :
  ∀ self self' : MemUsageMonitor,
    memmon_poll_rate (opts self) ≤ 0 → parked_inv self →
    exec self t = Some self' → parked_inv self' ∧ samples t = [].
Proof.
  induction t as [| e t IH]; intros self self' Hrate Hinv H; simpl in H.
  - by inversion H; subst.
  - destruct (step self e) as [self1 |] eqn:E; [| discriminate].
    destruct (parked_inv_step _ _ _ Hrate Hinv E) as [Hinv1 He].
    pose proof (step_frame _ _ _ E) as (_ & _ & Ho & _).
    destruct (IH self1 self') as [Hinv' Ht]; [by rewrite Ho | done | done |].
    split; [done |].
    change (samples (e :: t)) with (sample_of e ++ samples t).
    by rewrite He, Ht.
Qed.

Lemma parked_inv_init (h : Host) (nm : string) (d : Device) (o : Opts) :
  parked_inv (init h nm d o).
Proof. split; [by left | done]. Qed.

Lemma reachable_parked_inv (self : MemUsageMonitor) :
  reachable self → memmon_poll_rate (opts self) ≤ 0 → parked_inv self.
Proof.
  intros (h & nm & d & o & t & H) Hrate.
  pose proof (exec_frame _ _ _ H) as (_ & _ & Ho & _). rewrite Ho in Hrate.
  by destruct (parked_inv_exec _ _ _ Hrate (parked_inv_init h nm d o) H).
Qed.

(** ** A positive polling rate: only [stop()] closes the gate *)

Lemma gate_open_step (self self' : MemUsageMonitor) (e : Event) :
  0 < memmon_poll_rate (opts self) → gate_open self →
  is_stop e = false → step self e = Some self' → gate_open self'.
Proof.
  intros Hrate [Hflag Hn] Hns H. unfold gate_open.
  destruct e as [| | q | q | q | b].
  - apply start_frame in H as (_ & _ & _ & _ & _ & Hfl & _ & Hpc' & Hnt).
    rewrite Hfl, Hpc'. split; [done |].
    destruct (disabled self); [done |]. intros _. by rewrite Hnt.
  - inversion H; subst. by rewrite monitor_gate_open.
  - discriminate.
  - apply step_read in H. pose proof (read_notified _ _ _ H) as ->.
    apply read_frame in H. destruct H as (_ & _ & _ & _ & -> & ->). done.
  - apply step_dump_debug in H. pose proof (read_notified _ _ _ H) as ->.
    apply read_frame in H. destruct H as (_ & _ & _ & _ & -> & ->). done.
  - assert ((memmon_poll_rate (opts self) <=? 0) = false) as Hleb
      by (apply Z.leb_gt; lia).
    simpl in H. unfold run_step in H.
    destruct (pc self), b; try discriminate;
      simpl in H; rewrite ?Hflag, ?Hleb in H;
      repeat match type of H with
        | context [if ?c then _ else _] => destruct c
        | context [getitem ?d ?k] => destruct (getitem d k)
        end; inversion H; subst; simpl; done.
Qed.

Lemma gate_open_exec (t : list Event) :
  ∀ self self' : MemUsageMonitor,
    0 < memmon_poll_rate (opts self) → gate_open self →
    no_stop t = true → exec self t = Some self' → gate_open self'.
Proof.
  induction t as [| e t IH]; intros self self' Hrate Hflag Hns H; simpl in H.
  - by inversion H; subst.
  - destruct (step self e) as [self1 |] eqn:E; [| discriminate].
    simpl in Hns. apply andb_prop in Hns as [He Ht].
    apply negb_true_iff in He.
    pose proof (step_frame _ _ _ E) as (_ & _ & Ho & _).
    eapply (IH self1); [by rewrite Ho | | done | done].
    by eapply gate_open_step.
Qed.

Lemma gate_open_monitor (self : MemUsageMonitor) : gate_open (monitor self).
Proof.
  pose proof (monitor_frame self) as (_ & _ & _ & _ & _ & Hpc & Hfl).
  split; [done |]. rewrite Hpc. apply monitor_notified.
Qed.

(** ** Before any sample *)

Lemma no_sample_step (self self' : MemUsageMonitor) (e : Event) :
  value (data self) "min_free" = 0 → sample_of e = [] →
  step self e = Some self' → value (data self') "min_free" = 0.
Proof.
  intros Hv He H. destruct e as [| | q | q | q | b].
  - apply start_frame in H as (_ & _ & _ & _ & -> & _). done.
  - inversion H; subst.
    by pose proof (monitor_frame self) as (_ & _ & _ & _ & -> & _).
  - apply step_stop in H. unfold stop in H.
    by rewrite (read_min_free_value _ _ _ H).
  - apply step_read in H. by rewrite (read_min_free_value _ _ _ H).
  - apply step_dump_debug in H. by rewrite (read_min_free_value _ _ _ H).
  - simpl in H. by destruct (run_step_quiet _ _ _ He H) as [-> | ->].
Qed.

Lemma no_sample_exec (t : list Event) :
  ∀ self self' : MemUsageMonitor,
    value (data self) "min_free" = 0 → samples t = [] →
    exec self t = Some self' → value (data self') "min_free" = 0.
Proof.
  induction t as [| e t IH]; intros self self' Hv Hs H; simpl in H.
  - by inversion H; subst.
  - destruct (step self e) as [self1 |] eqn:E; [| discriminate].
    change (samples (e :: t)) with (sample_of e ++ samples t) in Hs.
    apply app_eq_nil in Hs as [He Ht].
    eapply (IH self1); [| done | done]. by eapply no_sample_step.
Qed.

(** * Main results *)

Example mib_rounds_up :
  (mib 0, mib 1, mib (1024 ^ 2), mib (1024 ^ 2 + 1)) = (0, 1, 1, 2).
Proof. reflexivity. Qed.

Example scenario_runs :
  exec (fresh 10) (scenario ++ [CallRead (snap 900 1000)])
  = Some (after (fresh 10) (scenario ++ [CallRead (snap 900 1000)])).
Proof. vm_compute. reflexivity. Qed.

Example scenario_values :
  let m := after (fresh 10) (scenario ++ [CallRead (snap 900 1000)]) in
  (data m !! "min_free", data m !! "free", data m !! "total", data m !! "system_peak")
  = (Some 600, Some 900, Some 1000, Some 400).
Proof. vm_compute. reflexivity. Qed.

Lemma reachable_fresh (rate : Z) : reachable (fresh rate).
Proof. by exists gaudi_host, "MemMon"%string, hpu0, {| memmon_poll_rate := rate |}, []. Qed.

Lemma reachable_parked (rate : Z) : reachable (parked rate).
Proof.
  by exists gaudi_host, "MemMon"%string, hpu0, {| memmon_poll_rate := rate |}, [Start].
Qed.

(** ** Sampling *)

(** C3, as the code has it: after [monitor()] on a monitor whose thread
    is parked at the gate (line 53), once the thread has been delivered
    the samples [f_1..f_N] ([N >= 1]) and no [stop()] has been called,
    [min_free] is [min(f_1..f_N)] (a member of the samples below all of
    them); and whatever happens next in the same episode, [min_free]
    does not increase. *)
Theorem min_free_is_minimum_of_samples
    (self self' : MemUsageMonitor) (t : list Event) (f : Z) (fs : list Z) :
  reachable self → pc self = AtWait →
  no_stop t = true → samples t = f :: fs →
  exec self (CallMonitor :: t) = Some self' →
  data self' !! "min_free" = Some (minimum f fs)
  ∧ minimum f fs ∈ f :: fs
  ∧ (∀ x, x ∈ f :: fs → minimum f fs ≤ x)
  ∧ ∀ t2 self2, no_stop t2 = true → exec self' t2 = Some self2 →
      ∃ v2, data self2 !! "min_free" = Some v2 ∧ v2 ≤ minimum f fs.
Proof.
  intros Hr Hpc Hns Hs H.
  destruct (Z_le_gt_dec (memmon_poll_rate (opts self)) 0) as [Hrate | Hrate].
  - (* no sample is ever delivered at a non-positive rate *)
    pose proof (reachable_parked_inv _ Hr Hrate) as Hinv.
    destruct (parked_inv_exec _ _ _ Hrate Hinv H) as [_ Hnil].
    change (samples (CallMonitor :: t)) with (samples t) in Hnil.
    rewrite Hs in Hnil. discriminate.
  - assert (disabled self = false) as Hd.
    { destruct (reachable_wf _ Hr) as [_ Hdis].
      destruct (disabled self); [| done].
      destruct (Hdis eq_refl) as [_ [E | E]]; rewrite Hpc in E; discriminate. }
    assert (episode_inv (f :: fs) self') as Hinv.
    { rewrite <- Hs. change (samples t) with ([] ++ samples t).
      eapply (episode_inv_exec t [] (monitor self)); [| done | exact H].
      apply episode_inv_monitor; [done | done | done | lia]. }
    split; [by apply episode_inv_min_free |].
    split; [apply minimum_attained |].
    split; [apply minimum_lower_bound |].
    intros t2 self2 Hns2 H2.
    pose proof (episode_inv_exec t2 _ _ _ Hinv Hns2 H2) as Hinv2.
    simpl in Hinv2. apply episode_inv_min_free in Hinv2.
    eexists. split; [exact Hinv2 |]. apply minimum_app_le.
Qed.

Lemma min_free_is_minimum_of_samples_witness :
  let t := [Bg Wake; Bg (Baseline (snap 800 1000)); Bg LoopTest;
            Bg (Sample (snap 600 1000)); Bg Sleep; CallRead (snap 650 1000);
            Bg LoopTest; Bg (Sample (snap 900 1000))] in
  pc (parked 10) = AtWait ∧ no_stop t = true ∧ samples t = [800; 600; 900]
  ∧ exec (parked 10) (CallMonitor :: t) = Some (after (parked 10) (CallMonitor :: t))
  ∧ data (after (parked 10) (CallMonitor :: t)) !! "min_free" = Some 600.
Proof.
  intros t.
  assert (pc (parked 10) = AtWait) as H1 by reflexivity.
  assert (no_stop t = true) as H2 by reflexivity.
  assert (samples t = [800; 600; 900]) as H3 by reflexivity.
  assert (exec (parked 10) (CallMonitor :: t)
          = Some (after (parked 10) (CallMonitor :: t))) as H4
    by (vm_compute; reflexivity).
  split; [exact H1 |]. split; [exact H2 |]. split; [exact H3 |].
  split; [exact H4 |].
  exact (proj1 (min_free_is_minimum_of_samples
                  (parked 10) _ t 800 [600; 900]
                  (reachable_parked 10) H1 H2 H3 H4)).
Defined.

(** C3 as stated fails when [monitor()] finds the thread still inside
    the loop of the previous episode: the monitor is idle (the gate was
    closed by [stop()]) but the thread sleeps at line 77; the thread
    never sees the gate closed, the map is not cleared, and after the
    samples [500, 700] of the new episode [min_free] is still the [100]
    of the old one. *)
Lemma min_free_keeps_previous_episode :
  let t0 := [Start; CallMonitor; Bg Wake; Bg (Baseline (snap 100 1000));
             Bg LoopTest; Bg (Sample (snap 100 1000));
             CallStop (snap 900 1000)] in
  let self := after (fresh 10) t0 in
  let t := [Bg Sleep; Bg LoopTest; Bg (Sample (snap 500 1000)); Bg Sleep;
            Bg LoopTest; Bg (Sample (snap 700 1000))] in
  exec (fresh 10) t0 = Some self
  ∧ state_of self = Idle
  ∧ pc self = AtSleep
  ∧ no_stop t = true
  ∧ samples t = [500; 700]
  ∧ ∃ self', exec self (CallMonitor :: t) = Some self'
      ∧ data self' !! "min_free" = Some 100
      ∧ data self' !! "min_free" ≠ Some (minimum 500 [700]).
Proof.
  intros t0 self t. split; [vm_compute; reflexivity |].
  split; [reflexivity |]. split; [reflexivity |]. split; [reflexivity |].
  split; [reflexivity |].
  eexists. split; [vm_compute; reflexivity |].
  split; [reflexivity |]. vm_compute. discriminate.
Qed.

(** ** [read] *)

(** C4: after every [read()] of a monitor, [read] returns and
    [system_peak == total - min_free] holds in the returned map.  With a
    device reporting [total = 1000], three samples [800, 600, 900]
    delivered to the thread after [monitor()], and a [read()] that
    queries [free = 900], the map holds [min_free = 600], [free = 900],
    [total = 1000], [system_peak = 400]. *)
Theorem system_peak_is_total_minus_min_free :
  (∀ (self : MemUsageMonitor) (q : Snapshot),
      reachable self →
      ∃ self', read self q = Ok self'
        ∧ value (data self') "system_peak"
          = value (data self') "total" - value (data self') "min_free")
  ∧ (∀ (self self1 : MemUsageMonitor) (t : list Event) (q : Snapshot),
      reachable self → pc self = AtWait →
      no_stop t = true → samples t = [800; 600; 900] →
      exec self (CallMonitor :: t) = Some self1 →
      free q = 900 → total q = 1000 →
      ∃ self2, read self1 q = Ok self2
        ∧ data self2 !! "min_free" = Some 600
        ∧ data self2 !! "free" = Some 900
        ∧ data self2 !! "total" = Some 1000
        ∧ data self2 !! "system_peak" = Some 400).
Proof.
  split.
  - intros self q Hr. destruct (reachable_read_returns self q Hr) as [self' H].
    exists self'. split; [exact H |].
    destruct (disabled self) eqn:Hd.
    + rewrite read_disabled in H by done. inversion H; subst.
      destruct (reachable_wf _ Hr) as [_ Hdis].
      destruct (Hdis Hd) as [-> _]. reflexivity.
    + destruct (read_figures _ _ _ H Hd) as (_ & Ht & Hp).
      pose proof (read_min_free_lookup _ _ _ H Hd) as Hm.
      rewrite (value_lookup (data self') "system_peak"), Hp.
      rewrite (value_lookup (data self') "total"), Ht.
      by rewrite (value_lookup (data self') "min_free"), Hm.
  - intros self self1 t q Hr Hpc Hns Hs H Hf Ht.
    assert (reachable self1) as Hr1 by (by eapply reachable_exec).
    destruct (reachable_read_returns self1 q Hr1) as [self2 H2].
    exists self2. split; [exact H2 |].
    assert (data self1 !! "min_free" = Some 600 ∧ disabled self1 = false)
      as [Hm Hd].
    { destruct (Z_le_gt_dec (memmon_poll_rate (opts self)) 0) as [Hrate | Hrate].
      - pose proof (reachable_parked_inv _ Hr Hrate) as Hinv.
        destruct (parked_inv_exec _ _ _ Hrate Hinv H) as [_ Hnil].
        change (samples (CallMonitor :: t)) with (samples t) in Hnil.
        rewrite Hs in Hnil. discriminate.
      - assert (disabled self = false) as Hd.
        { destruct (reachable_wf _ Hr) as [_ Hdis].
          destruct (disabled self); [| done].
          destruct (Hdis eq_refl) as [_ [E | E]]; rewrite Hpc in E; discriminate. }
        assert (episode_inv [800; 600; 900] self1) as Hinv.
        { rewrite <- Hs. change (samples t) with ([] ++ samples t).
          eapply (episode_inv_exec t [] (monitor self)); [| done | exact H].
          apply episode_inv_monitor; [done | done | done | lia]. }
        split; [by apply episode_inv_min_free in Hinv |].
        by destruct Hinv as (? & _). }
    destruct (read_figures _ _ _ H2 Hd) as (Hfr & Htot & Hp).
    pose proof (read_min_free_lookup _ _ _ H2 Hd) as Hm2.
    rewrite value_lookup, Hm in Hp, Hm2. simpl in Hp, Hm2.
    rewrite Hf in Hfr. rewrite Ht in Htot, Hp. done.
Qed.

Lemma system_peak_is_total_minus_min_free_witness :
  pc (parked 10) = AtWait
  ∧ samples (tail (tail scenario)) = [800; 600; 900]
  ∧ exec (parked 10) (CallMonitor :: tail (tail scenario))
    = Some (after (fresh 10) scenario)
  ∧ ∃ self2, read (after (fresh 10) scenario) (snap 900 1000) = Ok self2
      ∧ data self2 !! "min_free" = Some 600
      ∧ data self2 !! "free" = Some 900
      ∧ data self2 !! "total" = Some 1000
      ∧ data self2 !! "system_peak" = Some 400.
Proof.
  assert (exec (parked 10) (CallMonitor :: tail (tail scenario))
          = Some (after (fresh 10) scenario)) as H
    by (vm_compute; reflexivity).
  split; [reflexivity |]. split; [reflexivity |]. split; [exact H |].
  exact (proj2 system_peak_is_total_minus_min_free
           (parked 10) _ (tail (tail scenario)) (snap 900 1000)
           (reachable_parked 10) eq_refl eq_refl eq_refl H eq_refl eq_refl).
Defined.

(** C7: [read] never changes the value of [min_free]: the value an
    observer gets for [data["min_free"]] is the same before and after,
    and an entry that is present is left as it is; the gate and the
    thread are not touched, so this holds in every state, [Sampling]
    included.  (On a monitor built by [__init__], [read] returns.) *)
Theorem read_leaves_min_free (self : MemUsageMonitor) (q : Snapshot) :
  (∀ self', read self q = Ok self' →
     value (data self') "min_free" = value (data self) "min_free"
     ∧ (∀ v, data self !! "min_free" = Some v → data self' !! "min_free" = Some v)
     ∧ run_flag self' = run_flag self
     ∧ pc self' = pc self)
  ∧ (reachable self → ∃ self', read self q = Ok self').
Proof.
  split; [| apply reachable_read_returns].
  intros self' H. split; [by eapply read_min_free_value |].
  pose proof (read_frame _ _ _ H) as (_ & _ & _ & _ & Hf & Hp).
  split; [| done].
  intros v Hv. destruct (disabled self) eqn:Hd.
  - rewrite read_disabled in H by done. by inversion H; subst.
  - by rewrite (read_min_free_lookup _ _ _ H Hd), value_lookup, Hv.
Qed.

Lemma read_leaves_min_free_witness :
  let self := after (fresh 10) scenario in
  state_of self = Sampling
  ∧ data self !! "min_free" = Some 600
  ∧ ∃ self', read self (snap 100 1000) = Ok self'
      ∧ data self' !! "min_free" = Some 600.
Proof.
  intros self. split; [reflexivity |]. split; [reflexivity |].
  destruct (proj2 (read_leaves_min_free self (snap 100 1000)))
    as [self' H].
  { apply (reachable_exec (fresh 10) self scenario (reachable_fresh 10)).
    vm_compute. reflexivity. }
  exists self'. split; [exact H |].
  apply (proj1 (read_leaves_min_free self (snap 100 1000)) self' H).
  reflexivity.
Defined.

(** C10: on an enabled monitor bound to an ['hpu'] device, [read]
    returns, and afterwards [reserved] and [reserved_peak] both hold the
    same figure, the used memory reported by the query. *)
Theorem hpu_reserved_equals_reserved_peak (self : MemUsageMonitor) (q : Snapshot) :
  disabled self = false → type (device self) = "hpu"%string →
  ∃ self', read self q = Ok self'
    ∧ data self' !! "reserved" = Some (used q)
    ∧ data self' !! "reserved_peak" = Some (used q)
    ∧ value (data self') "reserved" = value (data self') "reserved_peak".
Proof.
  intros Hd Ht.
  assert (is_cuda (device self) = false ∧ is_hpu (device self) = true) as [Hc Hh].
  { unfold is_cuda, is_hpu. by rewrite Ht. }
  destruct (read_supported self q) as [self' H]; [by rewrite Hc, Hh |].
  exists self'. split; [exact H |].
  assert (data self' !! "reserved" = Some (used q)
          ∧ data self' !! "reserved_peak" = Some (used q)) as [Hr Hp].
  { destruct (read_enabled _ _ _ Hd H) as (m & Hs & _).
    rewrite (read_stats_passed _ _ _ _ "reserved" Hd H Hs) by not_in_keys.
    rewrite (read_stats_passed _ _ _ _ "reserved_peak" Hd H Hs) by not_in_keys.
    unfold read_stats in Hs. rewrite Hc, Hh in Hs. inversion Hs; subst m.
    unfold setitem.
    split; repeat (rewrite lookup_insert_ne by done); apply lookup_insert_eq. }
  by rewrite !value_lookup, Hr, Hp.
Qed.

Lemma hpu_reserved_equals_reserved_peak_witness :
  disabled (parked 10) = false ∧ type (device (parked 10)) = "hpu"%string
  ∧ ∃ self', read (parked 10) (snap 300 1000) = Ok self'
      ∧ data self' !! "reserved" = Some 700
      ∧ data self' !! "reserved_peak" = Some 700
      ∧ value (data self') "reserved" = value (data self') "reserved_peak".
Proof.
  split; [reflexivity |]. split; [reflexivity |].
  exact (hpu_reserved_equals_reserved_peak (parked 10) (snap 300 1000)
           eq_refl eq_refl).
Defined.

(** C9: on a monitor that [__init__] left enabled, a [read()] made
    before any sample was delivered to the thread returns, stores
    [min_free = 0] (the default of the map) and stores the total memory
    of the device as [system_peak]. *)
Theorem read_before_sampling
    (h : Host) (nm : string) (d : Device) (o : Opts)
    (t : list Event) (self : MemUsageMonitor) (q : Snapshot) :
  disabled (init h nm d o) = false → samples t = [] →
  exec (init h nm d o) t = Some self →
  ∃ self', read self q = Ok self'
    ∧ data self' !! "min_free" = Some 0
    ∧ data self' !! "system_peak" = Some (total q).
Proof.
  intros Hd Hs H.
  assert (reachable self) as Hr by (by exists h, nm, d, o, t).
  destruct (reachable_read_returns self q Hr) as [self' H'].
  exists self'. split; [exact H' |].
  pose proof (exec_frame _ _ _ H) as (_ & _ & _ & Hd'). rewrite Hd in Hd'.
  assert (value (data self) "min_free" = 0) as Hv.
  { eapply (no_sample_exec t (init h nm d o)); [done | exact Hs | exact H]. }
  destruct (read_figures _ _ _ H' Hd') as (_ & _ & Hp).
  rewrite (read_min_free_lookup _ _ _ H' Hd'), Hp, Hv.
  by rewrite Z.sub_0_r.
Qed.

Lemma read_before_sampling_witness :
  let t := [Start; CallMonitor; CallRead (snap 700 1000); Bg Wake] in
  disabled (fresh 10) = false ∧ samples t = []
  ∧ exec (fresh 10) t = Some (after (fresh 10) t)
  ∧ ∃ self', read (after (fresh 10) t) (snap 900 1000) = Ok self'
      ∧ data self' !! "min_free" = Some 0
      ∧ data self' !! "system_peak" = Some 1000.
Proof.
  intros t.
  assert (exec (fresh 10) t = Some (after (fresh 10) t)) as H
    by (vm_compute; reflexivity).
  split; [reflexivity |]. split; [reflexivity |]. split; [exact H |].
  exact (read_before_sampling gaudi_host "MemMon" hpu0
           {| memmon_poll_rate := 10 |} t _ (snap 900 1000)
           eq_refl eq_refl H).
Defined.

(** ** Construction *)

Lemma is_cuda_false (d : Device) : type d ≠ "cuda"%string → is_cuda d = false.
Proof. intros H. unfold is_cuda. by apply String.eqb_neq. Qed.

Lemma is_hpu_false (d : Device) : type d ≠ "hpu"%string → is_hpu d = false.
Proof. intros H. unfold is_hpu. by apply String.eqb_neq. Qed.

Lemma lacks_capability_probe (h : Host) (d : Device) :
  lacks_capability h d → ∃ e, init_probe h d = Err e.
Proof.
  unfold init_probe.
  intros [[Hc Hh] | [[Ht Hr] | [Ht Hr]]].
  - rewrite (is_cuda_false _ Hc), (is_hpu_false _ Hh). by eexists.
  - unfold is_cuda. rewrite Ht. simpl.
    destruct Hr as [[e ->] | [e ->]]; simpl; [by eexists |].
    destruct (cuda_mem_get_info_probe h); simpl; by eexists.
  - unfold is_cuda, is_hpu. rewrite Ht. simpl.
    destruct Hr as [-> | Hr]; [by eexists |].
    destruct (hthpu h); [| by eexists].
    destruct Hr as [[e ->] | [-> | [e ->]]]; simpl; try by eexists.
    destruct (hpu_is_available_probe h) as [[] |]; simpl; by eexists.
Qed.

(** C5: when the device type is not recognized, or a call of the
    construction-time probe raises (or reports the backend unavailable),
    [__init__] returns a monitor with [disabled = True] and an empty map;
    and whatever is called afterwards, the monitor stays disabled, every
    [read()] returns the map as it is, and the map stays empty. *)
Theorem construction_without_capability_disables
    (h : Host) (nm : string) (d : Device) (o : Opts) :
  lacks_capability h d →
  disabled (init h nm d o) = true
  ∧ data (init h nm d o) = ∅
  ∧ ∀ t self, exec (init h nm d o) t = Some self →
      disabled self = true
      ∧ data self = ∅
      ∧ ∀ q, read self q = Ok self.
Proof.
  intros Hl. destruct (lacks_capability_probe h d Hl) as [e He].
  assert (disabled (init h nm d o) = true) as Hd.
  { unfold init. simpl. by rewrite He. }
  split; [exact Hd |]. split; [reflexivity |].
  intros t self H.
  pose proof (exec_frame _ _ _ H) as (_ & _ & _ & Hd'). rewrite Hd in Hd'.
  assert (reachable self) as Hr by (by exists h, nm, d, o, t).
  destruct (reachable_wf _ Hr) as [_ Hdis].
  split; [exact Hd' |]. split; [by destruct (Hdis Hd') |].
  intros q. by apply read_disabled.
Qed.

Lemma construction_without_capability_disables_witness :
  let t := [Start; CallMonitor; CallRead (snap 700 1000); CallStop (snap 600 1000)] in
  lacks_capability gaudi_host tpu0
  ∧ disabled (init gaudi_host "MemMon" tpu0 {| memmon_poll_rate := 8 |}) = true
  ∧ ∃ self, exec (init gaudi_host "MemMon" tpu0 {| memmon_poll_rate := 8 |}) t = Some self
      ∧ data self = ∅.
Proof.
  intros t.
  assert (lacks_capability gaudi_host tpu0) as Hl by (left; split; discriminate).
  pose proof (construction_without_capability_disables
                gaudi_host "MemMon" tpu0 {| memmon_poll_rate := 8 |} Hl)
    as (Hd & _ & Hall).
  split; [exact Hl |]. split; [exact Hd |].
  eexists. split; [vm_compute; reflexivity |].
  apply (Hall t). vm_compute. reflexivity.
Defined.

(** ** [monitor], [stop], [dump_debug] *)

Lemma exec_snoc_inv (self self' : MemUsageMonitor) (t : list Event) (e : Event) :
  exec self (t ++ [e]) = Some self' →
  ∃ self1, exec self t = Some self1 ∧ step self1 e = Some self'.
Proof.
  rewrite exec_app. destruct (exec self t) as [self1 |]; simpl; [| done].
  intros H. exists self1. split; [done |]. by destruct (step self1 e).
Qed.

(** C1, as the code has it: with a polling rate [<= 0], between
    [monitor()] and [stop()] the thread takes no free-memory sample (it
    clears the map and closes the gate before the baseline line); after
    [stop()] the map holds [min_free = 0], the map's default, [free] is
    the figure queried by the [read] inside [stop], [system_peak] is the
    total memory, and the gate is closed. *)
Theorem nonpositive_rate_takes_no_baseline
    (self self' : MemUsageMonitor) (bg : list BgEvent) (q : Snapshot) :
  reachable self → disabled self = false →
  memmon_poll_rate (opts self) ≤ 0 →
  exec self (CallMonitor :: (Bg <$> bg) ++ [CallStop q]) = Some self' →
  samples (Bg <$> bg) = []
  ∧ data self' !! "min_free" = Some 0
  ∧ data self' !! "free" = Some (free q)
  ∧ data self' !! "system_peak" = Some (total q)
  ∧ run_flag self' = false.
Proof.
  intros Hr Hd Hrate H.
  pose proof (reachable_parked_inv _ Hr Hrate) as Hinv.
  change (CallMonitor :: (Bg <$> bg) ++ [CallStop q])
    with ((CallMonitor :: (Bg <$> bg)) ++ [CallStop q]) in H.
  apply exec_snoc_inv in H as (self1 & H1 & Hstop).
  destruct (parked_inv_exec _ _ _ Hrate Hinv H1) as [[_ Hv] Hnil].
  split; [exact Hnil |].
  pose proof (exec_frame _ _ _ H1) as (_ & _ & _ & Hd1). rewrite Hd in Hd1.
  apply step_stop in Hstop. unfold stop in Hstop.
  assert (disabled (set_run_flag false self1) = false) as Hd2 by done.
  destruct (read_figures _ _ _ Hstop Hd2) as (Hf & _ & Hp).
  pose proof (read_min_free_lookup _ _ _ Hstop Hd2) as Hm.
  pose proof (read_frame _ _ _ Hstop) as (_ & _ & _ & _ & Hfl & _).
  simpl in Hp, Hm. rewrite Hv in Hp, Hm. rewrite Z.sub_0_r in Hp. done.
Qed.

Lemma nonpositive_rate_takes_no_baseline_witness :
  let t := CallMonitor :: (Bg <$> [Wake]) ++ [CallStop (snap 500 1000)] in
  disabled (parked 0) = false
  ∧ memmon_poll_rate (opts (parked 0)) ≤ 0
  ∧ exec (parked 0) t = Some (after (parked 0) t)
  ∧ data (after (parked 0) t) !! "min_free" = Some 0
  ∧ data (after (parked 0) t) !! "free" = Some 500.
Proof.
  intros t.
  assert (memmon_poll_rate (opts (parked 0)) ≤ 0) as Hrate by (simpl; lia).
  assert (exec (parked 0) t = Some (after (parked 0) t)) as H
    by (vm_compute; reflexivity).
  split; [reflexivity |]. split; [exact Hrate |]. split; [exact H |].
  destruct (nonpositive_rate_takes_no_baseline
              (parked 0) _ [Wake] (snap 500 1000)
              (reachable_parked 0) eq_refl Hrate H) as (_ & Hm & Hf & _).
  split; [exact Hm | exact Hf].
Defined.

(** C1 as stated fails: at rate [0], [monitor(); stop()] with the thread
    woken in between takes no baseline sample at all, and [min_free] is
    [0] although the device reports [500] free bytes. *)
Lemma nonpositive_rate_one_baseline_fails :
  let t := [CallMonitor; Bg Wake; CallStop (snap 500 1000)] in
  disabled (parked 0) = false
  ∧ memmon_poll_rate (opts (parked 0)) ≤ 0
  ∧ exec (parked 0) t = Some (after (parked 0) t)
  ∧ length (samples t) ≠ 1%nat
  ∧ value (data (after (parked 0) t)) "min_free" ≠ free (snap 500 1000).
Proof.
  intros t. split; [reflexivity |]. split; [simpl; lia |].
  split; [vm_compute; reflexivity |].
  split; intros E; vm_compute in E; discriminate.
Qed.

(** C2, as the code has it: on an idle monitor [stop()] is the [read()]
    it ends with.  It returns; the monitor stays idle and the thread
    stays where it is; the value of [min_free] and every entry that
    [read] does not write are unchanged; [free], [total] and
    [system_peak] are refreshed from the device. *)
Theorem stop_while_idle_is_read (self : MemUsageMonitor) (q : Snapshot) :
  reachable self → state_of self = Idle →
  ∃ self', stop self q = Ok self'
    ∧ read self q = Ok self'
    ∧ state_of self' = Idle
    ∧ pc self' = pc self
    ∧ value (data self') "min_free" = value (data self) "min_free"
    ∧ (∀ k, k ∉ read_keys → data self' !! k = data self !! k)
    ∧ data self' !! "free" = Some (free q)
    ∧ data self' !! "total" = Some (total q)
    ∧ data self' !! "system_peak" = Some (total q - value (data self) "min_free").
Proof.
  intros Hr Hidle.
  assert (disabled self = false ∧ run_flag self = false) as [Hd Hfl].
  { unfold state_of in Hidle.
    destruct (disabled self); [done |]. by destruct (run_flag self). }
  destruct (reachable_read_returns self q Hr) as [self' H].
  exists self'.
  assert (stop self q = Ok self') as Hstop.
  { unfold stop. by rewrite <- Hfl, set_run_flag_same. }
  pose proof (read_frame _ _ _ H) as (_ & _ & _ & Hd' & Hfl' & Hpc').
  destruct (read_figures _ _ _ H Hd) as (Hf & Ht & Hp).
  split; [exact Hstop |]. split; [exact H |].
  split; [unfold state_of; by rewrite Hd', Hfl', Hd, Hfl |].
  split; [exact Hpc' |].
  split; [by eapply read_min_free_value |].
  split; [intros k Hk; by eapply read_lookup_other |].
  done.
Qed.

Lemma stop_while_idle_is_read_witness :
  state_of (parked 10) = Idle
  ∧ ∃ self', stop (parked 10) (snap 900 1000) = Ok self'
      ∧ state_of self' = Idle
      ∧ data self' !! "free" = Some 900.
Proof.
  split; [reflexivity |].
  destruct (stop_while_idle_is_read (parked 10) (snap 900 1000)
              (reachable_parked 10) eq_refl)
    as (self' & Hs & _ & Hi & _ & _ & _ & Hf & _).
  exists self'. split; [exact Hs |]. split; [exact Hi | exact Hf].
Defined.

(** C2 as stated fails: on an idle monitor with an empty map, [stop()]
    adds the entry [free]. *)
Lemma stop_while_idle_changes_map :
  state_of (parked 10) = Idle
  ∧ ∃ self', stop (parked 10) (snap 900 1000) = Ok self'
      ∧ data (parked 10) !! "free" = None
      ∧ data self' !! "free" = Some 900
      ∧ data self' ≠ data (parked 10).
Proof.
  split; [reflexivity |]. eexists. split; [vm_compute; reflexivity |].
  split; [reflexivity |]. split; [reflexivity |].
  intros E. apply (f_equal (λ m : gmap string Z, m !! "free")) in E.
  vm_compute in E. discriminate.
Qed.

(** C6, as the code has it: [dump_debug()] goes through [read()].  It
    returns; the state ([Disabled] / [Idle] / [Sampling]), the thread,
    the value of [min_free] and every entry that [read] does not write
    are unchanged; on a disabled monitor nothing changes at all; on an
    enabled one the map is refreshed exactly as by a [read()]. *)
Theorem dump_debug_is_read (self : MemUsageMonitor) (q : Snapshot) :
  reachable self →
  ∃ self' out, dump_debug self q = Ok (self', out)
    ∧ read self q = Ok self'
    ∧ state_of self' = state_of self
    ∧ pc self' = pc self
    ∧ value (data self') "min_free" = value (data self) "min_free"
    ∧ (∀ k, k ∉ read_keys → data self' !! k = data self !! k)
    ∧ (disabled self = true → self' = self).
Proof.
  intros Hr. destruct (reachable_read_returns self q Hr) as [self' H].
  destruct (dump_debug_ok _ _ _ H) as [out Hdump].
  exists self', out.
  pose proof (read_frame _ _ _ H) as (_ & _ & _ & Hd' & Hfl' & Hpc').
  split; [exact Hdump |]. split; [exact H |].
  split; [unfold state_of; by rewrite Hd', Hfl' |].
  split; [exact Hpc' |].
  split; [by eapply read_min_free_value |].
  split; [intros k Hk; by eapply read_lookup_other |].
  intros Hd. rewrite read_disabled in H by done. by inversion H.
Qed.

Lemma dump_debug_is_read_witness :
  ∃ self' out, dump_debug (after (fresh 10) scenario) (snap 900 1000) = Ok (self', out)
    ∧ state_of self' = Sampling
    ∧ value (data self') "min_free" = 600.
Proof.
  destruct (dump_debug_is_read (after (fresh 10) scenario) (snap 900 1000))
    as (self' & out & Hdump & _ & Hst & _ & Hm & _).
  { apply (reachable_exec (fresh 10) _ scenario (reachable_fresh 10)).
    vm_compute. reflexivity. }
  exists self', out. split; [exact Hdump |]. split; [exact Hst | exact Hm].
Defined.

(** C6 as stated fails: on an idle monitor with an empty map,
    [dump_debug()] adds the entry [free]. *)
Lemma dump_debug_changes_map :
  ∃ self' out, dump_debug (parked 10) (snap 900 1000) = Ok (self', out)
    ∧ data (parked 10) !! "free" = None
    ∧ data self' !! "free" = Some 900
    ∧ self' ≠ parked 10.
Proof.
  eexists. eexists. split; [vm_compute; reflexivity |].
  split; [reflexivity |]. split; [reflexivity |].
  intros E. apply (f_equal (λ s, data s !! "free")) in E.
  vm_compute in E. discriminate.
Qed.

(** C8, as the code has it: with a polling rate [> 0], once [monitor()]
    has been called and until [stop()] is called, the gate stays open
    and a further [monitor()] is a no-op: the monitor is left as it is,
    and whatever follows behaves as if the call had not been made. *)
Theorem monitor_twice_is_noop
    (self self' : MemUsageMonitor) (t : list Event) :
  0 < memmon_poll_rate (opts self) → no_stop t = true →
  exec self (CallMonitor :: t) = Some self' →
  run_flag self' = true
  ∧ monitor self' = self'
  ∧ ∀ t2, exec self' (CallMonitor :: t2) = exec self' t2.
Proof.
  intros Hrate Hns H.
  assert (gate_open self') as [Hfl Hn].
  { eapply (gate_open_exec t (monitor self)); [| | done | exact H].
    - by pose proof (monitor_frame self) as (_ & _ & -> & _).
    - apply gate_open_monitor. }
  split; [exact Hfl |]. split; [by apply monitor_gate_open |].
  intros t2. simpl. by rewrite monitor_gate_open.
Qed.

Lemma monitor_twice_is_noop_witness :
  0 < memmon_poll_rate (opts (fresh 10))
  ∧ exec (fresh 10) scenario = Some (after (fresh 10) scenario)
  ∧ monitor (after (fresh 10) scenario) = after (fresh 10) scenario.
Proof.
  assert (0 < memmon_poll_rate (opts (parked 10))) as Hrate by (simpl; lia).
  assert (exec (parked 10) (CallMonitor :: tail (tail scenario))
          = Some (after (fresh 10) scenario)) as H by (vm_compute; reflexivity).
  split; [exact Hrate |]. split; [vm_compute; reflexivity |].
  exact (proj1 (proj2 (monitor_twice_is_noop (parked 10) _ (tail (tail scenario))
                         Hrate eq_refl H))).
Defined.

(** C8 as stated fails: at rate [0] the thread closes the gate itself,
    so a second [monitor()] without a [stop()] in between opens it
    again, and the thread clears the map a second time. *)
Lemma monitor_twice_restarts_at_rate_zero :
  let t := [CallMonitor; Bg Wake; CallRead (snap 500 1000)] in
  let self := after (parked 0) t in
  exec (parked 0) t = Some self
  ∧ no_stop t = true
  ∧ monitor self ≠ self
  ∧ exec self [Bg Wake] = None
  ∧ data self !! "free" = Some 500
  ∧ ∃ self', exec self [CallMonitor; Bg Wake] = Some self' ∧ data self' = ∅.
Proof.
  intros t self. split; [vm_compute; reflexivity |]. split; [reflexivity |].
  split.
  { intros E. apply (f_equal run_flag) in E. vm_compute in E. discriminate. }
  split; [reflexivity |]. split; [reflexivity |].
  eexists. split; vm_compute; reflexivity.
Qed.

(** * Further properties of the code *)

(** ** [__init__] *)

Lemma is_cuda_true (d : Device) : is_cuda d = true ↔ type d = "cuda"%string.
Proof. unfold is_cuda. apply String.eqb_eq. Qed.

Lemma is_hpu_true (d : Device) : is_hpu d = true ↔ type d = "hpu"%string.
Proof. unfold is_hpu. apply String.eqb_eq. Qed.

(** [__init__] leaves the monitor enabled exactly when the device is a
    cuda device whose two probing calls return, or an hpu device with
    the backend imported, available, and answering the memory query; the
    new monitor has its gate closed, an empty map and a thread that is
    not started. *)
Theorem init_enabled_iff_capability
    (h : Host) (nm : string) (d : Device) (o : Opts) :
  (disabled (init h nm d o) = false ↔ has_capability h d)
  ∧ run_flag (init h nm d o) = false
  ∧ data (init h nm d o) = ∅
  ∧ pc (init h nm d o) = NotStarted
  ∧ device (init h nm d o) = d
  ∧ opts (init h nm d o) = o.
Proof.
  split; [| done]. unfold init, has_capability. simpl. unfold init_probe.
  destruct (is_cuda d) eqn:Hc.
  - apply is_cuda_true in Hc. split.
    + intros H. left. split; [done |].
      destruct (cuda_mem_get_info_probe h) as [[] |]; simpl in H; [| done].
      destruct (cuda_memory_stats_probe h) as [[] |]; done.
    + intros [(_ & -> & ->) | (Ht & _)]; [done |]. rewrite Hc in Ht. done.
  - assert (type d ≠ "cuda"%string) as Hnc.
    { intros E. apply is_cuda_true in E. congruence. }
    destruct (is_hpu d) eqn:Hh; simpl.
    + apply is_hpu_true in Hh. split.
      * intros H. right. split; [done |].
        destruct (hthpu h); [| done]. split; [done |].
        destruct (hpu_is_available_probe h) as [[] |]; simpl in H; try done.
        destruct (hpu_mem_get_info_probe h) as [[] |]; done.
      * intros [(Ht & _) | (_ & -> & -> & ->)]; done.
    + assert (type d ≠ "hpu"%string) as Hnh.
      { intros E. apply is_hpu_true in E. congruence. }
      split; [done |]. intros [(Ht & _) | (Ht & _)]; done.
Qed.

Lemma init_enabled_iff_capability_witness :
  has_capability cuda_host cuda1
  ∧ disabled (init cuda_host "MemMon" cuda1 {| memmon_poll_rate := 8 |}) = false
  ∧ ¬ has_capability cuda_host hpu0
  ∧ disabled (init cuda_host "MemMon" hpu0 {| memmon_poll_rate := 8 |}) = true.
Proof.
  assert (has_capability cuda_host cuda1) as Hc by (left; done).
  split; [exact Hc |].
  split.
  { apply (proj1 (init_enabled_iff_capability cuda_host "MemMon" cuda1
                    {| memmon_poll_rate := 8 |})). exact Hc. }
  assert (¬ has_capability cuda_host hpu0) as Hn.
  { intros [(Ht & _) | (_ & Hm & _)]; discriminate. }
  split; [exact Hn |].
  destruct (disabled (init cuda_host "MemMon" hpu0 {| memmon_poll_rate := 8 |}))
    eqn:E; [reflexivity |].
  exfalso. apply Hn.
  apply (proj1 (init_enabled_iff_capability cuda_host "MemMon" hpu0
                  {| memmon_poll_rate := 8 |})). exact E.
Defined.

(** ** [dump_debug] *)

Lemma mib_bounds (v : Z) : 1048576 * (mib v - 1) < v ≤ 1048576 * mib v.
Proof.
  unfold mib. change (- (1024 ^ 2)) with (-1048576).
  pose proof (Z.div_mod v (-1048576) ltac:(lia)) as Hdm.
  pose proof (Z.mod_neg_bound v (-1048576) ltac:(lia)) as Hb. lia.
Qed.

(** The figure [dump_debug] prints for [v] bytes is [v] rounded up to
    whole mebibytes: the least [n] with [v <= n * 2^20]; this also holds
    for zero and for negative figures. *)
Theorem mib_is_ceiling (v : Z) :
  v ≤ 1048576 * mib v ∧ ∀ n, v ≤ 1048576 * n → mib v ≤ n.
Proof.
  pose proof (mib_bounds v) as Hb. split; [lia |]. intros n Hn. lia.
Qed.

Lemma mib_is_ceiling_witness :
  mib 1048577 = 2 ∧ 1048577 ≤ 1048576 * mib 1048577 ∧ mib (-1) = 0.
Proof.
  split; [reflexivity |].
  split; [exact (proj1 (mib_is_ceiling 1048577)) |].
  pose proof (proj2 (mib_is_ceiling (-1)) 0 ltac:(lia)) as Hle.
  pose proof (proj1 (mib_is_ceiling (-1))) as Hge. lia.
Defined.

(** [dump_debug] prints exactly one line per entry of the map that its
    [read] returns, and the figure on the line of [k] is the stored
    value rounded up to mebibytes. *)
Theorem dump_debug_lines
    (self self' : MemUsageMonitor) (q : Snapshot) (out : list (string * Z)) :
  dump_debug self q = Ok (self', out) →
  length out = size (data self')
  ∧ ∀ k n, (k, n) ∈ out ↔ ∃ v, data self' !! k = Some v ∧ n = mib v.
Proof.
  intros H. pose proof (dump_debug_read _ _ _ _ H) as Hr.
  unfold dump_debug in H. rewrite Hr in H. simpl in H.
  inversion H as [Hout]. clear H. split.
  - rewrite length_fmap. apply length_map_to_list.
  - intros k n. rewrite list_elem_of_fmap. split.
    + intros ([k' v] & E & Hin). simpl in E. inversion E; subst.
      apply elem_of_map_to_list in Hin. by exists v.
    + intros (v & Hv & ->). exists (k, v). split; [done |].
      by apply elem_of_map_to_list.
Qed.

Lemma dump_debug_lines_witness :
  ∃ self' out,
    dump_debug (after (fresh 10) scenario) (snap 900000000 2000000000) = Ok (self', out)
    ∧ length out = 11%nat
    ∧ (("free"%string, 859) ∈ out ↔
       ∃ v, data self' !! "free" = Some v ∧ 859 = mib v).
Proof.
  eexists. eexists. split; [vm_compute; reflexivity |].
  match goal with
  | |- length ?o = _ ∧ _ =>
      pose proof (dump_debug_lines (after (fresh 10) scenario) _
                    (snap 900000000 2000000000) o
                    ltac:(vm_compute; reflexivity)) as [Hl Hi]
  end.
  split; [rewrite Hl; vm_compute; reflexivity | apply Hi].
Defined.

(** ** [read]: which entries it writes *)

Lemma read_stats_untouched (d : Device) (q : Snapshot) (m m' : gmap string Z)
    (a b : Z) (k : string) :
  read_stats d q m = Ok (a, b, m') → k ∉ stats_keys d → m' !! k = m !! k.
Proof.
  unfold read_stats, stats_keys, setitem. intros H Hk.
  destruct (is_cuda d); [| destruct (is_hpu d)]; inversion H; subst;
    split_keys Hk; by rewrite !lookup_insert_ne.
Qed.

Lemma read_stats_written (d : Device) (q : Snapshot) (m n m' n' : gmap string Z)
    (a b a' b' : Z) (k : string) :
  read_stats d q m = Ok (a, b, m') → read_stats d q n = Ok (a', b', n') →
  k ∈ stats_keys d → m' !! k = n' !! k.
Proof.
  unfold read_stats, stats_keys, setitem. intros Hm Hn Hk.
  destruct (is_cuda d); [| destruct (is_hpu d)];
    inversion Hm; inversion Hn; subst;
    repeat (apply elem_of_cons in Hk as [-> | Hk]);
    try (by apply elem_of_nil in Hk);
    repeat first [rewrite lookup_insert_eq | rewrite lookup_insert_ne by done];
    done.
Qed.

Lemma read_stats_dom (d : Device) (q : Snapshot) (m m' : gmap string Z) (a b : Z) :
  read_stats d q m = Ok (a, b, m') →
  dom m' = dom m ∪ list_to_set (stats_keys d).
Proof.
  unfold read_stats, stats_keys, setitem. intros H.
  destruct (is_cuda d); [| destruct (is_hpu d)]; inversion H; subst;
    rewrite !dom_insert_L; simpl; key_sets.
Qed.

Lemma getitem_dom (d : gmap string Z) (k : string) :
  dom (snd (getitem d k)) = {[k]} ∪ dom d.
Proof.
  unfold getitem. destruct (d !! k) eqn:E; simpl.
  - assert (k ∈ dom d) as Hk by (apply elem_of_dom; eauto).
    apply set_eq. intros x. rewrite elem_of_union, elem_of_singleton.
    split; [by right | by intros [-> | ?]].
  - apply dom_insert_L.
Qed.

(** After a [read()] on an enabled monitor the keys of the map are the
    keys it had, plus the allocator keys of the device family ([active],
    [active_peak], [reserved], [reserved_peak]; on hpu also
    [total_memory], [num_allocs], [num_frees]), plus [free], [total],
    [min_free] and [system_peak]: [read] never removes a key, and
    [min_free] appears in the map even when no sample was ever taken. *)
Theorem read_key_set (self self' : MemUsageMonitor) (q : Snapshot) :
  disabled self = false → read self q = Ok self' →
  dom (data self')
  = dom (data self) ∪ list_to_set (stats_keys (device self))
    ∪ list_to_set summary_keys.
Proof.
  intros Hd H. destruct (read_enabled _ _ _ Hd H) as (m & Hs & ->). simpl.
  unfold setitem. rewrite dom_insert_L, getitem_dom, !dom_insert_L.
  rewrite (read_stats_dom _ _ _ _ _ _ Hs). unfold summary_keys. simpl.
  key_sets.
Qed.

Lemma read_key_set_witness :
  disabled (parked 10) = false
  ∧ ∃ self', read (parked 10) (snap 900 1000) = Ok self'
      ∧ dom (data self')
        = list_to_set
            ["active"; "active_peak"; "reserved"; "reserved_peak";
             "total_memory"; "num_allocs"; "num_frees"; "free"; "total";
             "min_free"; "system_peak"]%string.
Proof.
  split; [reflexivity |]. eexists. split; [vm_compute; reflexivity |].
  rewrite (read_key_set (parked 10) _ (snap 900 1000) eq_refl
             ltac:(vm_compute; reflexivity)).
  vm_compute. reflexivity.
Defined.

(** ** [read] after [read] *)

(** Reading twice leaves what the second read alone would have left:
    every figure of the first query is overwritten, and [min_free] is
    the same as before both.  In particular a repeated [read()] with the
    same answers from the device changes nothing more. *)
Theorem read_after_read
    (self self1 : MemUsageMonitor) (q1 q2 : Snapshot) :
  read self q1 = Ok self1 → read self1 q2 = read self q2.
Proof.
  intros H1. destruct (disabled self) eqn:Hd.
  { rewrite read_disabled in H1 by done. by inversion H1; subst. }
  pose proof (read_frame _ _ _ H1) as (Hn & Hdev & Ho & Hd1 & Hf & Hp).
  rewrite Hd in Hd1.
  destruct (read_enabled _ _ _ Hd H1) as (m1 & Hs1 & E1).
  assert (supported (device self) = true) as Hsup.
  { unfold supported. unfold read_stats in Hs1.
    destruct (is_cuda (device self)); [done |].
    destruct (is_hpu (device self)); done. }
  destruct (read_supported self q2 Hsup) as [s2 H2].
  destruct (read_supported self1 q2) as [s12 H12]; [by rewrite Hdev |].
  rewrite H12, H2. f_equal.
  destruct (read_enabled _ _ _ Hd H2) as (m2 & Hs2 & E2).
  destruct (read_enabled _ _ _ Hd1 H12) as (m12 & Hs12 & E12).
  assert (data s12 = data s2) as Hdata.
  { apply map_eq. intros k.
    destruct (read_figures _ _ _ H12 Hd1) as (Hf12 & Ht12 & Hp12).
    destruct (read_figures _ _ _ H2 Hd) as (Hf2 & Ht2 & Hp2).
    pose proof (read_min_free_lookup _ _ _ H12 Hd1) as Hm12.
    pose proof (read_min_free_lookup _ _ _ H2 Hd) as Hm2.
    rewrite (read_min_free_value _ _ _ H1) in Hp12, Hm12.
    destruct (decide (k = "free"%string)) as [-> | ?]; [congruence |].
    destruct (decide (k = "total"%string)) as [-> | ?]; [congruence |].
    destruct (decide (k = "min_free"%string)) as [-> | ?]; [congruence |].
    destruct (decide (k = "system_peak"%string)) as [-> | ?]; [congruence |].
    rewrite (read_stats_passed _ _ _ _ k Hd1 H12 Hs12) by not_in_keys.
    rewrite (read_stats_passed _ _ _ _ k Hd H2 Hs2) by not_in_keys.
    rewrite Hdev in Hs12.
    destruct (decide (k ∈ stats_keys (device self))) as [Hin | Hout].
    - by eapply read_stats_written.
    - rewrite (read_stats_untouched _ _ _ _ _ _ _ Hs12 Hout).
      rewrite (read_stats_untouched _ _ _ _ _ _ _ Hs2 Hout).
      rewrite (read_stats_passed _ _ _ _ k Hd H1 Hs1) by not_in_keys.
      by rewrite (read_stats_untouched _ _ _ _ _ _ _ Hs1 Hout). }
  rewrite E12, E2 in Hdata |- *. simpl in Hdata. rewrite Hdata.
  rewrite E1. reflexivity.
Qed.

Lemma read_after_read_witness :
  ∃ self1, read (after (fresh 10) scenario) (snap 850 1000) = Ok self1
    ∧ read self1 (snap 900 1000)
      = read (after (fresh 10) scenario) (snap 900 1000).
Proof.
  eexists. split; [vm_compute; reflexivity |].
  apply (read_after_read (after (fresh 10) scenario) _ (snap 850 1000)).
  vm_compute. reflexivity.
Defined.

(** ** The end of an episode *)

(** From a parked thread, [monitor()] followed by moves that deliver at
    least one sample puts the monitor in its sampling loop. *)
Lemma episode_reached
    (self s1 : MemUsageMonitor) (t : list Event) (f : Z) (fs : list Z) :
  reachable self → pc self = AtWait →
  no_stop t = true → samples t = f :: fs →
  exec self (CallMonitor :: t) = Some s1 →
  episode_inv (f :: fs) s1.
Proof.
  intros Hr Hpc Hns Hs H.
  destruct (Z_le_gt_dec (memmon_poll_rate (opts self)) 0) as [Hrate | Hrate].
  - pose proof (reachable_parked_inv _ Hr Hrate) as Hinv.
    destruct (parked_inv_exec _ _ _ Hrate Hinv H) as [_ Hnil].
    change (samples (CallMonitor :: t)) with (samples t) in Hnil.
    rewrite Hs in Hnil. discriminate.
  - assert (disabled self = false) as Hd.
    { destruct (reachable_wf _ Hr) as [_ Hdis].
      destruct (disabled self); [| done].
      destruct (Hdis eq_refl) as [_ [E | E]]; rewrite Hpc in E; discriminate. }
    rewrite <- Hs. change (samples t) with ([] ++ samples t).
    eapply (episode_inv_exec t [] (monitor self)); [| done | exact H].
    apply episode_inv_monitor; [done | done | done | lia].
Qed.

(** [stop()] after an episode in which the thread was delivered the
    samples [f_1..f_N] returns a map whose [system_peak] is the total
    memory minus the smallest sample, next to the figures of its own
    query, and leaves the monitor idle. *)
Theorem stop_reports_episode_peak
    (self self' : MemUsageMonitor) (t : list Event) (f : Z) (fs : list Z)
    (q : Snapshot) :
  reachable self → pc self = AtWait →
  no_stop t = true → samples t = f :: fs →
  exec self (CallMonitor :: t ++ [CallStop q]) = Some self' →
  data self' !! "min_free" = Some (minimum f fs)
  ∧ data self' !! "system_peak" = Some (total q - minimum f fs)
  ∧ data self' !! "free" = Some (free q)
  ∧ data self' !! "total" = Some (total q)
  ∧ state_of self' = Idle.
Proof.
  intros Hr Hpc Hns Hs H.
  change (CallMonitor :: t ++ [CallStop q])
    with ((CallMonitor :: t) ++ [CallStop q]) in H.
  apply exec_snoc_inv in H as (s1 & H1 & Hstop).
  pose proof (episode_reached _ _ _ _ _ Hr Hpc Hns Hs H1) as Hinv.
  pose proof (episode_inv_min_free _ _ _ Hinv) as Hm.
  destruct Hinv as (Hd & _).
  apply step_stop in Hstop. unfold stop in Hstop.
  assert (disabled (set_run_flag false s1) = false) as Hd2 by done.
  destruct (read_figures _ _ _ Hstop Hd2) as (Hf & Ht & Hp).
  pose proof (read_min_free_lookup _ _ _ Hstop Hd2) as Hm2.
  pose proof (read_frame _ _ _ Hstop) as (_ & _ & _ & Hd' & Hfl & _).
  simpl in Hp, Hm2, Hd', Hfl. rewrite value_lookup, Hm in Hp, Hm2.
  simpl in Hp, Hm2.
  repeat (split; [done |]). unfold state_of. by rewrite Hd', Hfl, Hd.
Qed.

Lemma stop_reports_episode_peak_witness :
  pc (parked 10) = AtWait
  ∧ samples (tail (tail scenario)) = [800; 600; 900]
  ∧ ∃ self',
      exec (parked 10)
        (CallMonitor :: tail (tail scenario) ++ [CallStop (snap 950 1000)])
      = Some self'
      ∧ data self' !! "system_peak" = Some 400
      ∧ state_of self' = Idle.
Proof.
  split; [reflexivity |]. split; [reflexivity |].
  eexists. split; [vm_compute; reflexivity |].
  destruct (stop_reports_episode_peak (parked 10) _ (tail (tail scenario))
              800 [600; 900] (snap 950 1000)
              (reachable_parked 10) eq_refl eq_refl eq_refl
              ltac:(vm_compute; reflexivity))
    as (_ & Hp & _ & _ & Hi).
  split; [exact Hp | exact Hi].
Defined.

(** When [stop()] is followed by [monitor()] before the thread has seen
    the gate closed, the thread stays in its loop: the map is not
    cleared, no new baseline is taken, and [min_free] goes on as the
    minimum over the samples of the old episode and the new ones. *)
Theorem stop_then_monitor_continues_episode
    (self s1 s2 : MemUsageMonitor) (t1 t2 : list Event) (f : Z) (fs : list Z)
    (q : Snapshot) :
  reachable self → pc self = AtWait →
  no_stop t1 = true → samples t1 = f :: fs →
  exec self (CallMonitor :: t1) = Some s1 →
  no_stop t2 = true →
  exec s1 (CallStop q :: CallMonitor :: t2) = Some s2 →
  data s2 !! "min_free" = Some (minimum f (fs ++ samples t2))
  ∧ pc s2 ≠ AtWait.
Proof.
  intros Hr Hpc Hns1 Hs1 H1 Hns2 H2.
  pose proof (episode_reached _ _ _ _ _ Hr Hpc Hns1 Hs1 H1) as Hinv.
  pose proof (episode_inv_min_free _ _ _ Hinv) as Hm.
  destruct Hinv as (Hd & Hsup & Hrate & Hfl & Hloop).
  simpl in H2. destruct (to_option (stop s1 q)) as [s' |] eqn:Hstop;
    [| discriminate].
  assert (stop s1 q = Ok s') as Hstop'.
  { destruct (stop s1 q); simpl in Hstop; by inversion Hstop. }
  unfold stop in Hstop'.
  assert (disabled (set_run_flag false s1) = false) as Hd2 by done.
  pose proof (read_min_free_lookup _ _ _ Hstop' Hd2) as Hm'.
  pose proof (read_frame _ _ _ Hstop') as (_ & Hdev & Ho & Hd' & _ & Hpc').
  simpl in Hm', Hdev, Ho, Hd', Hpc'. rewrite value_lookup, Hm in Hm'.
  simpl in Hm'.
  assert (episode_inv (f :: fs) (monitor s')) as Hinv'.
  { pose proof (monitor_frame s') as (_ & Hdev2 & Ho2 & Hd2' & Hdata2 & Hpc2 & Hfl2).
    unfold episode_inv.
    rewrite Hdev2, Ho2, Hd2', Hdata2, Hpc2, Hfl2, Hdev, Ho, Hd', Hpc'.
    repeat (split; [done |]).
    destruct (pc s1); try done.
    - by destruct Hloop.
    - by exists f, fs.
    - by exists f, fs.
    - by exists f, fs.
    - right. by exists f, fs. }
  pose proof (episode_inv_exec t2 _ _ _ Hinv' Hns2 H2) as Hinv2.
  simpl in Hinv2. split; [by apply episode_inv_min_free in Hinv2 |].
  destruct Hinv2 as (_ & _ & _ & _ & Hloop2). intros E. rewrite E in Hloop2.
  by destruct Hloop2.
Qed.

Lemma stop_then_monitor_continues_episode_witness :
  let t2 := [Bg (Sample (snap 950 1000)); Bg Sleep; Bg LoopTest] in
  pc (parked 10) = AtWait
  ∧ samples [Bg Wake; Bg (Baseline (snap 300 1000)); Bg LoopTest] = [300]
  ∧ ∃ s1 s2,
      exec (parked 10)
        [CallMonitor; Bg Wake; Bg (Baseline (snap 300 1000)); Bg LoopTest]
      = Some s1
      ∧ exec s1 (CallStop (snap 900 1000) :: CallMonitor :: t2) = Some s2
      ∧ data s2 !! "min_free" = Some 300.
Proof.
  intros t2. split; [reflexivity |]. split; [reflexivity |].
  eexists. eexists. split; [vm_compute; reflexivity |].
  split; [vm_compute; reflexivity |].
  exact (proj1 (stop_then_monitor_continues_episode
                  (parked 10) _ _
                  [Bg Wake; Bg (Baseline (snap 300 1000)); Bg LoopTest] t2
                  300 [] (snap 900 1000)
                  (reachable_parked 10) eq_refl eq_refl eq_refl
                  ltac:(vm_compute; reflexivity) eq_refl
                  ltac:(vm_compute; reflexivity))).
Defined.

(** ** The thread once the gate is closed *)

Lemma gate_closed_step (self self' : MemUsageMonitor) (e : BgEvent) :
  run_flag self = false → run_step self e = Some self' →
  run_flag self' = false
  ∧ (moves_left self' < moves_left self)%nat
  ∧ (length (sample_of (Bg e)) + samples_left self' ≤ samples_left self)%nat
  ∧ (pc self' = AtWait → notified self' = false)
  ∧ (e ≠ Wake → ∀ k, k ≠ "min_free"%string → data self' !! k = data self !! k)
  ∧ (e = Wake → data self' = ∅ ∧ pc self = AtWait ∧ notified self = true).
Proof.
  intros Hfl H. unfold run_step in H. unfold moves_left, samples_left.
  destruct (pc self) eqn:Hpc, e; try discriminate.
  - (* Wake *)
    destruct (notified self) eqn:Hn; [| discriminate]. simpl in H.
    destruct (memmon_poll_rate (opts self) <=? 0);
      inversion H; subst; simpl; rewrite ?Hpc;
      repeat (split; [done || lia |]); done.
  - (* the peak reset raises *)
    destruct (notified self) eqn:Hn; [| discriminate]. simpl in H.
    destruct (is_cuda (device self)); [| discriminate].
    inversion H; subst; simpl. repeat (split; [done || lia |]). done.
  - (* Baseline *)
    inversion H; subst; simpl. repeat (split; [done || lia |]).
    split; [| done]. intros _ k Hk. unfold setitem.
    destruct (is_cuda (device self)); [by rewrite lookup_insert_ne |].
    destruct (is_hpu (device self)); [by rewrite lookup_insert_ne | done].
  - (* the baseline query raises *)
    destruct (is_cuda _ || is_hpu _); [| discriminate].
    inversion H; subst; simpl. repeat (split; [done || lia |]). done.
  - (* LoopTest *)
    rewrite Hfl in H. inversion H; subst; simpl. rewrite Hfl.
    repeat (split; [done || lia |]). done.
  - (* Sample *)
    pose proof (getitem_lookup_other (data self) "min_free") as Ho.
    destruct (getitem (data self) "min_free") as [mf m]. simpl in Ho.
    destruct (is_cuda (device self) || is_hpu (device self));
      inversion H; subst; simpl; repeat (split; [done || lia |]);
      (split; [| done]); intros _ k Hk; unfold setitem;
      rewrite ?lookup_insert_ne by done; by apply Ho.
  - (* the query of the loop raises *)
    destruct (is_cuda _ || is_hpu _); [| discriminate].
    inversion H; subst; simpl. repeat (split; [done || lia |]). done.
  - (* Sleep *)
    destruct (memmon_poll_rate (opts self) <=? 0); [discriminate |].
    inversion H; subst; simpl. repeat (split; [done || lia |]). done.
  - (* the sleep raises *)
    inversion H; subst; simpl. repeat (split; [done || lia |]). done.
Qed.

Lemma gate_closed_exec (bg : list BgEvent) :
  ∀ self self' : MemUsageMonitor,
    run_flag self = false → exec self (Bg <$> bg) = Some self' →
    (length bg ≤ moves_left self)%nat
    ∧ (length (samples (Bg <$> bg)) ≤ samples_left self)%nat
    ∧ run_flag self' = false
    ∧ ((pc self = AtWait → notified self = false) →
       ∀ k, k ≠ "min_free"%string → data self' !! k = data self !! k).
Proof.
  induction bg as [| e bg IH]; intros self self' Hfl H.
  - inversion H; subst. simpl. repeat (split; [done || lia |]). done.
  - simpl in H. destruct (run_step self e) as [s1 |] eqn:E; [| discriminate].
    destruct (gate_closed_step _ _ _ Hfl E)
      as (Hfl1 & Hm & Hs & Hn1 & Hother & Hwake).
    destruct (IH s1 self' Hfl1 H) as (Hlen & Hsam & Hfl' & Hk).
    change (samples (Bg <$> e :: bg))
      with (sample_of (Bg e) ++ samples (Bg <$> bg)).
    rewrite length_app. simpl length at 1.
    split; [lia |]. split; [lia |]. split; [done |].
    intros Hn k Hne. rewrite (Hk Hn1 k Hne). apply Hother; [| done].
    intros ->. destruct (Hwake eq_refl) as (_ & Hpc & Hnt).
    rewrite (Hn Hpc) in Hnt. discriminate.
Qed.

(** Cancellation is cooperative and bounded.  With the gate closed and
    no further call from the caller, the thread makes at most three more
    moves and takes at most one more sample, and the gate stays closed.
    Unless the thread was left released at the wait, it changes no entry
    of the map other than [min_free].  If it was (as after [monitor()]
    then [stop()] on a waiting thread) and it wakes, it clears the map:
    every entry [stop()] returned is gone, and at most [min_free] is
    written again.  When the thread can move no more it is at the wait
    (or is not running). *)
Theorem gate_closed_thread_parks
    (self self' : MemUsageMonitor) (bg : list BgEvent) :
  run_flag self = false → exec self (Bg <$> bg) = Some self' →
  (length bg ≤ 3)%nat
  ∧ (length (samples (Bg <$> bg)) ≤ 1)%nat
  ∧ run_flag self' = false
  ∧ ((pc self = AtWait → notified self = false) →
     ∀ k, k ≠ "min_free"%string → data self' !! k = data self !! k)
  ∧ (∀ bg', bg = Wake :: bg' →
     ∀ k, k ≠ "min_free"%string → data self' !! k = None)
  ∧ ((∀ e, run_step self' e = None) →
     pc self' = AtWait ∨ pc self' = NotStarted ∨ pc self' = Exited).
Proof.
  intros Hfl H.
  destruct (gate_closed_exec bg self self' Hfl H) as (Hlen & Hsam & Hfl' & Hk).
  split.
  { unfold moves_left in Hlen.
    destruct (pc self); try destruct (notified self); lia. }
  split.
  { unfold samples_left in Hsam.
    destruct (pc self); try destruct (notified self); lia. }
  split; [done |]. split; [done |]. split.
  - intros bg' -> k Hne. simpl in H.
    destruct (run_step self Wake) as [s1 |] eqn:E; [| discriminate].
    destruct (gate_closed_step _ _ _ Hfl E) as (Hfl1 & _ & _ & Hn1 & _ & Hwake).
    destruct (Hwake eq_refl) as (Hempty & _).
    destruct (gate_closed_exec bg' s1 self' Hfl1 H) as (_ & _ & _ & Hk1).
    by rewrite (Hk1 Hn1 k Hne), Hempty.
  - intros Hstuck. unfold run_step in Hstuck.
    destruct (pc self') eqn:Hpc; auto.
    + specialize (Hstuck (Baseline (snap 0 0))). discriminate.
    + specialize (Hstuck LoopTest). rewrite Hfl' in Hstuck. discriminate.
    + specialize (Hstuck (Sample (snap 0 0))).
      destruct (getitem _ _), (is_cuda _ || is_hpu _); discriminate.
    + specialize (Hstuck Raise). discriminate.
Qed.

Lemma gate_closed_thread_parks_witness :
  let self := after (parked 10) [CallMonitor; CallStop (snap 900 1000)] in
  let bg := [Wake; Baseline (snap 100 1000); LoopTest] in
  run_flag self = false
  ∧ data self !! "free" = Some 900
  ∧ ∃ self', exec self (Bg <$> bg) = Some self'
      ∧ pc self' = AtWait
      ∧ data self' !! "min_free" = Some 100
      ∧ data self' !! "free" = None.
Proof.
  intros self bg. split; [reflexivity |]. split; [reflexivity |].
  eexists. split; [vm_compute; reflexivity |].
  split; [reflexivity |]. split; [reflexivity |].
  destruct (gate_closed_thread_parks self _ bg eq_refl
              ltac:(vm_compute; reflexivity)) as (_ & _ & _ & _ & Hw & _).
  apply (Hw [Baseline (snap 100 1000); LoopTest] eq_refl). discriminate.
Defined.

(** ** The life of the thread *)

(** On a disabled monitor no move of the thread is ever possible: before
    [start()] the thread does not run, and [run] returns at once, also
    after [monitor()] has set the gate. *)
Theorem disabled_thread_never_moves (self : MemUsageMonitor) (e : BgEvent) :
  reachable self → disabled self = true →
  run_step self e = None
  ∧ (pc self = NotStarted ∨ pc self = Exited)
  ∧ data self = ∅.
Proof.
  intros Hr Hd. destruct (reachable_wf _ Hr) as [_ Hdis].
  destruct (Hdis Hd) as [Hdata Hpc].
  split; [| done]. unfold run_step.
  destruct Hpc as [-> | ->]; by destruct e.
Qed.

Lemma disabled_thread_never_moves_witness :
  let self := after (init gaudi_host "MemMon" tpu0 {| memmon_poll_rate := 8 |})
                [Start; CallMonitor] in
  disabled self = true ∧ run_flag self = true ∧ run_step self Wake = None.
Proof.
  intros self. split; [reflexivity |]. split; [reflexivity |].
  apply (disabled_thread_never_moves self Wake); [| reflexivity].
  exists gaudi_host, "MemMon"%string, tpu0, {| memmon_poll_rate := 8 |},
    [Start; CallMonitor]. vm_compute. reflexivity.
Defined.

Lemma enabled_step_not_exited (self self' : MemUsageMonitor) (e : Event) :
  disabled self = false → supported (device self) = true →
  is_raise e = false →
  pc self ≠ Exited → step self e = Some self' → pc self' ≠ Exited.
Proof.
  intros Hd Hsup Hnr Hpc H. destruct e as [| | q | q | q | b].
  - apply start_frame in H as (_ & _ & _ & _ & _ & _ & _ & -> & _).
    by rewrite Hd.
  - inversion H; subst.
    by pose proof (monitor_frame self) as (_ & _ & _ & _ & _ & -> & _).
  - apply step_stop in H. apply read_frame in H.
    destruct H as (_ & _ & _ & _ & _ & ->). done.
  - apply step_read in H. apply read_frame in H.
    destruct H as (_ & _ & _ & _ & _ & ->). done.
  - apply step_dump_debug in H. apply read_frame in H.
    destruct H as (_ & _ & _ & _ & _ & ->). done.
  - simpl in H. unfold run_step in H. unfold supported in Hsup.
    rewrite Hsup in H.
    destruct (pc self) eqn:Epc, b; try discriminate;
      repeat match type of H with
        | context [if ?c then _ else _] => destruct c
        | context [getitem ?d ?k] => destruct (getitem d k)
        end; inversion H; subst; simpl; rewrite ?Epc; done.
Qed.

(** On an enabled monitor the thread ends only when a call it makes
    raises: as long as no call of the thread raises, [run] never returns
    and the sampling loop never dies on an unbound [free], because
    [__init__] only leaves the monitor enabled for the device types the
    loop has a branch for. *)
Theorem enabled_thread_never_exits
    (h : Host) (nm : string) (d : Device) (o : Opts)
    (t : list Event) (self : MemUsageMonitor) :
  exec (init h nm d o) t = Some self → disabled self = false →
  no_raise t = true →
  pc self ≠ Exited ∧ supported (device self) = true.
Proof.
  intros H Hd Hnr.
  assert (reachable self) as Hr by (by exists h, nm, d, o, t).
  split; [| by apply (reachable_wf _ Hr)].
  pose proof (exec_frame _ _ _ H) as (_ & _ & _ & Hd0).
  rewrite Hd in Hd0. symmetry in Hd0.
  assert (supported d = true) as Hsup by (by apply (init_wf h nm d o)).
  assert (∀ t s s',
            (disabled s = false ∧ supported (device s) = true) ∧ pc s ≠ Exited →
            no_raise t = true → exec s t = Some s' → pc s' ≠ Exited) as Hall.
  { clear. induction t as [| e t IH]; intros s s' [[Hds Hsp] Hpc] Hnr H;
      simpl in H.
    - by inversion H; subst.
    - destruct (step s e) as [s1 |] eqn:E; [| discriminate].
      simpl in Hnr. apply andb_prop in Hnr as [He Ht].
      apply negb_true_iff in He.
      pose proof (step_frame _ _ _ E) as (_ & Hdev' & _ & Hd').
      apply (IH s1 s'); [| done | done].
      split; [split; congruence |]. by eapply enabled_step_not_exited. }
  apply (Hall t (init h nm d o) self); [| done | done]. done.
Qed.

Lemma enabled_thread_never_exits_witness :
  exec (fresh 10) scenario = Some (after (fresh 10) scenario)
  ∧ disabled (after (fresh 10) scenario) = false
  ∧ no_raise scenario = true
  ∧ pc (after (fresh 10) scenario) ≠ Exited.
Proof.
  assert (exec (fresh 10) scenario = Some (after (fresh 10) scenario)) as H
    by (vm_compute; reflexivity).
  split; [exact H |]. split; [reflexivity |]. split; [reflexivity |].
  exact (proj1 (enabled_thread_never_exits gaudi_host "MemMon" hpu0
                  {| memmon_poll_rate := 10 |} scenario _ H eq_refl eq_refl)).
Defined.




(** ** Bounds on the reported peak *)

Lemma value_setitem (d : gmap string Z) (k : string) (v : Z) :
  value (setitem k v d) k = v.
Proof. unfold setitem. by rewrite value_lookup, lookup_insert_eq. Qed.

Lemma value_getitem (d : gmap string Z) (k : string) :
  value (snd (getitem d k)) k = value d k.
Proof. by rewrite (value_lookup (snd _)), getitem_lookup_same. Qed.

Lemma min_free_bounded_step
    (T : Z) (self self' : MemUsageMonitor) (e : Event) :
  0 ≤ T → 0 ≤ value (data self) "min_free" ≤ T →
  Forall (λ f, 0 ≤ f ≤ T) (sample_of e) →
  step self e = Some self' →
  0 ≤ value (data self') "min_free" ≤ T.
Proof.
  intros HT Hv Hf H. destruct e as [| | q | q | q | b].
  - apply start_frame in H as (_ & _ & _ & _ & -> & _). done.
  - inversion H; subst.
    by pose proof (monitor_frame self) as (_ & _ & _ & _ & -> & _).
  - apply step_stop in H. unfold stop in H.
    by rewrite (read_min_free_value _ _ _ H).
  - apply step_read in H. by rewrite (read_min_free_value _ _ _ H).
  - apply step_dump_debug in H. by rewrite (read_min_free_value _ _ _ H).
  - simpl in H.
    assert (sample_of (Bg b) = [] → 0 ≤ value (data self') "min_free" ≤ T)
      as Hquiet.
    { intros He. by destruct (run_step_quiet _ _ _ He H) as [-> | ->]. }
    destruct b as [| q | | q | |]; try (by apply Hquiet).
    + (* Baseline *)
      simpl in Hf. apply Forall_cons in Hf as [Hq _].
      unfold run_step in H. destruct (pc self); try discriminate.
      inversion H; subst; simpl.
      destruct (is_cuda (device self)); [by rewrite value_setitem |].
      destruct (is_hpu (device self)); [by rewrite value_setitem | done].
    + (* Sample *)
      simpl in Hf. apply Forall_cons in Hf as [Hq _].
      unfold run_step in H. destruct (pc self); try discriminate.
      rewrite value_lookup in Hv. unfold getitem in H.
      destruct (data self !! "min_free") as [mf |] eqn:Emf; simpl in Hv;
        destruct (is_cuda (device self) || is_hpu (device self));
        inversion H; subst; simpl;
        rewrite ?value_setitem, ?value_lookup, ?lookup_insert_eq, ?Emf;
        simpl; lia.
Qed.

Lemma min_free_bounded_exec (T : Z) (t : list Event) :
  ∀ self self' : MemUsageMonitor,
    0 ≤ T → 0 ≤ value (data self) "min_free" ≤ T →
    Forall (λ f, 0 ≤ f ≤ T) (samples t) →
    exec self t = Some self' →
    0 ≤ value (data self') "min_free" ≤ T.
Proof.
  induction t as [| e t IH]; intros self self' HT Hv Hf H; simpl in H.
  - by inversion H; subst.
  - destruct (step self e) as [s1 |] eqn:E; [| discriminate].
    change (samples (e :: t)) with (sample_of e ++ samples t) in Hf.
    apply Forall_app in Hf as [He Ht].
    eapply (IH s1); [done | | done | done].
    by eapply min_free_bounded_step.
Qed.

(** If every sample delivered to the thread since construction lies
    between [0] and the total memory that a [read()] is told, then that
    [read()] returns and the [system_peak] it stores lies between [0]
    and that total: the reported peak is never negative and never
    exceeds the size of the device. *)
Theorem system_peak_within_total
    (h : Host) (nm : string) (d : Device) (o : Opts)
    (t : list Event) (self : MemUsageMonitor) (q : Snapshot) :
  exec (init h nm d o) t = Some self →
  0 ≤ total q → Forall (λ f, 0 ≤ f ≤ total q) (samples t) →
  ∃ self', read self q = Ok self'
    ∧ 0 ≤ value (data self') "system_peak" ≤ total q.
Proof.
  intros H HT Hf.
  assert (reachable self) as Hr by (by exists h, nm, d, o, t).
  destruct (reachable_read_returns self q Hr) as [self' H'].
  exists self'. split; [exact H' |].
  assert (0 ≤ value (data self) "min_free" ≤ total q) as Hv.
  { eapply (min_free_bounded_exec (total q) t (init h nm d o));
      [done | | done | done]. by simpl. }
  destruct (disabled self) eqn:Hd.
  - rewrite read_disabled in H' by done. inversion H'; subst.
    destruct (reachable_wf _ Hr) as [_ Hdis]. destruct (Hdis Hd) as [-> _].
    by simpl.
  - destruct (read_figures _ _ _ H' Hd) as (_ & _ & Hp).
    rewrite value_lookup, Hp. simpl. lia.
Qed.

Lemma system_peak_within_total_witness :
  exec (fresh 10) scenario = Some (after (fresh 10) scenario)
  ∧ Forall (λ f, 0 ≤ f ≤ total (snap 900 1000)) (samples scenario)
  ∧ ∃ self', read (after (fresh 10) scenario) (snap 900 1000) = Ok self'
      ∧ 0 ≤ value (data self') "system_peak" ≤ total (snap 900 1000).
Proof.
  assert (exec (fresh 10) scenario = Some (after (fresh 10) scenario)) as H
    by (vm_compute; reflexivity).
  assert (Forall (λ f, 0 ≤ f ≤ total (snap 900 1000)) (samples scenario)) as Hf.
  { repeat (apply Forall_cons; split; [simpl; lia |]). apply Forall_nil_2. }
  split; [exact H |]. split; [exact Hf |].
  apply (system_peak_within_total gaudi_host "MemMon" hpu0
           {| memmon_poll_rate := 10 |} scenario _ (snap 900 1000) H);
    [simpl; lia | exact Hf].
Defined.

(** ** Sampling switched off *)

(** With a polling rate [<= 0], at every moment of the life of an
    enabled monitor a [read()] returns, stores [min_free = 0] and
    reports the whole memory of the device as [system_peak]; the thread
    never reaches the baseline (it is not started, at the wait, or has
    died on a raising peak reset). *)
Theorem nonpositive_rate_reads_total (self : MemUsageMonitor) (q : Snapshot) :
  reachable self → disabled self = false →
  memmon_poll_rate (opts self) ≤ 0 →
  ∃ self', read self q = Ok self'
    ∧ data self' !! "min_free" = Some 0
    ∧ data self' !! "system_peak" = Some (total q)
    ∧ (pc self' = NotStarted ∨ pc self' = AtWait ∨ pc self' = Exited).
Proof.
  intros Hr Hd Hrate.
  destruct (reachable_read_returns self q Hr) as [self' H].
  exists self'. split; [exact H |].
  destruct (reachable_parked_inv _ Hr Hrate) as [Hpc Hv].
  destruct (read_figures _ _ _ H Hd) as (_ & _ & Hp).
  pose proof (read_min_free_lookup _ _ _ H Hd) as Hm.
  pose proof (read_frame _ _ _ H) as (_ & _ & _ & _ & _ & Hpc').
  rewrite Hv in Hp, Hm. rewrite Z.sub_0_r in Hp.
  split; [done |]. split; [done |]. by rewrite Hpc'.
Qed.

Lemma nonpositive_rate_reads_total_witness :
  let self := after (parked 0)
                [CallMonitor; Bg Wake; CallRead (snap 200 1000); CallMonitor] in
  disabled self = false ∧ memmon_poll_rate (opts self) ≤ 0
  ∧ ∃ self', read self (snap 300 1000) = Ok self'
      ∧ data self' !! "system_peak" = Some 1000.
Proof.
  intros self.
  assert (memmon_poll_rate (opts self) ≤ 0) as Hrate
    by (vm_compute; discriminate).
  split; [reflexivity |]. split; [exact Hrate |].
  destruct (nonpositive_rate_reads_total self (snap 300 1000))
    as (self' & H & _ & Hp & _); [| reflexivity | exact Hrate |].
  { apply (reachable_exec (parked 0) self
             [CallMonitor; Bg Wake; CallRead (snap 200 1000); CallMonitor]
             (reachable_parked 0)).
    vm_compute. reflexivity. }
  exists self'. split; [exact H | exact Hp].
Defined.
